(** * Simulating DESI spectra: the notebook's own logic

    A shallow embedding of the code cells of [simulating-desi-spectra.ipynb]
    that build file paths, write the input FITS file, assemble and run the
    [quickspectra] and [rrdesi] command lines, and compute the velocity
    offsets that are plotted at the end.

    The notebook is straight-line Python executed by an IPython kernel.  Its
    state is the process environment, the files on disk, what was printed,
    and the [_exit_code] variable that the shell escape [!cmd] sets.  Cells
    are functions in a state-and-exception monad over that state; the
    external programs are parameters. *)

From Stdlib Require Import ZArith Ascii Floats.
From stdpp Require Import base option list strings pretty gmap.

(* Decimal literals such as 1.001 denote the nearest binary64 value, as they
   do in Python. *)
Set Warnings "-inexact-float".

(** ** Python values the notebook manipulates *)

Module Py.

(** The exceptions that the modelled calls can raise. *)
Inductive exn : Type :=
| KeyError (key : string)
| IndexError
| ValueError (msg : string)
| OSError (path : string)
| FileNotFoundError (path : string).

Inductive outcome (A : Type) : Type :=
| Ok (a : A)
| Raise (e : exn).
Arguments Ok {A} a.
Arguments Raise {A} e.

Definition omap_outcome {A B} (f : A → B) (o : outcome A) : outcome B :=
  match o with Ok a => Ok (f a) | Raise e => Raise e end.

(** [s.startswith(p)] and [s.endswith(p)]. *)
Definition startswith (s p : string) : bool := String.prefix p s.

Definition endswith (s p : string) : bool :=
  let n := String.length s in
  let k := String.length p in
  (k <=? n) && String.eqb (String.substring (n - k) k s) p.

(** [posixpath.join]: a component that starts with a slash discards
    what came before it; otherwise components are glued with exactly one
    slash, none being added after an empty path or a trailing slash. *)
Definition join_step (path b : string) : string :=
  if startswith b "/" then b
  else if String.eqb path "" || endswith path "/" then path +:+ b
  else path +:+ "/" +:+ b.

Definition join (a : string) (p : list string) : string :=
  foldl join_step a p.

(** [str.format] with positional and keyword arguments, for the fields the
    notebook uses: [{}] takes the next positional argument, [{name}] the
    keyword argument of that name; doubled braces are literal braces.
    The scanner is either in literal text ([field = None]) or inside a
    replacement field whose name read so far is [field = Some name].
    Substituted text is not scanned again. *)
Fixpoint format_from (tpl : string) (field : option string)
    (args : list string) (kwargs : list (string * string)) : outcome string :=
  match tpl, field with
  | EmptyString, None => Ok ""
  | EmptyString, Some _ => Raise (ValueError "expected '}' before end of string")
  | String c rest, None =>
      if Ascii.eqb c "{" then
        match rest with
        | String "{"%char rest' =>
            omap_outcome (String "{"%char) (format_from rest' None args kwargs)
        | _ => format_from rest (Some "") args kwargs
        end
      else if Ascii.eqb c "}" then
        match rest with
        | String "}"%char rest' =>
            omap_outcome (String "}"%char) (format_from rest' None args kwargs)
        | _ => Raise (ValueError "Single '}' encountered in format string")
        end
      else omap_outcome (String c) (format_from rest None args kwargs)
  | String c rest, Some name =>
      if Ascii.eqb c "}" then
        if String.eqb name "" then
          match args with
          | a :: args' =>
              omap_outcome (String.append a) (format_from rest None args' kwargs)
          | [] => Raise IndexError
          end
        else
          match List.find (λ kv, String.eqb (fst kv) name) kwargs with
          | Some kv =>
              omap_outcome (String.append (snd kv)) (format_from rest None args kwargs)
          | None => Raise (KeyError name)
          end
      else format_from rest (Some (name +:+ String c "")) args kwargs
  end.

Definition format (tpl : string) (args : list string)
    (kwargs : list (string * string)) : outcome string :=
  format_from tpl None args kwargs.

End Py.
Export Py.

(** ** Arrays of floating-point numbers, as [numpy] computes with them *)

Module Np.

Inductive dtype : Type := float32 | float64.

(** A 1D array: its element type and its elements.  Every element is held as
    the binary64 number of the same value, so the elements of a [float32]
    array are binary32 numbers. *)
Record ndarray : Type := Array {
  dtype_of : dtype;
  values : list float;
}.

(** The element type of the result of an operation on two arrays. *)
Definition result_type (a b : dtype) : dtype :=
  match a, b with
  | float32, float32 => float32
  | _, _ => float64
  end.

(** An operation of the binary32 format: the exact result rounded to 24
    bits of precision, to nearest with ties to even. *)
Definition binary32 (op : spec_float → spec_float → spec_float) (x y : float) : float :=
  SF2Prim (op (Prim2SF x) (Prim2SF y)).

Definition add (d : dtype) : float → float → float :=
  match d with float64 => PrimFloat.add | float32 => binary32 (SFadd 24 128) end.
Definition sub (d : dtype) : float → float → float :=
  match d with float64 => PrimFloat.sub | float32 => binary32 (SFsub 24 128) end.
Definition mul (d : dtype) : float → float → float :=
  match d with float64 => PrimFloat.mul | float32 => binary32 (SFmul 24 128) end.
Definition div (d : dtype) : float → float → float :=
  match d with float64 => PrimFloat.div | float32 => binary32 (SFdiv 24 128) end.

(** An elementwise operation on the elements of two 1D arrays; an operand of
    length one is stretched to the length of the other. *)
Definition broadcast (f : float → float → float) (x y : list float)
    : outcome (list float) :=
  if length x =? length y then Ok (zip_with f x y)
  else
    match x, y with
    | [a], _ => Ok (map (f a) y)
    | _, [b] => Ok (map (λ a, f a b) x)
    | _, _ =>
        Raise (ValueError
                 ("operands could not be broadcast together with shapes ("
                  +:+ pretty (length x) +:+ ",) (" +:+ pretty (length y) +:+ ",) "))
    end.

End Np.

(** ** FITS files, as [astropy.io.fits] presents them

    A file is a list of header-data units.  A header is an ordered list of
    cards; only the cards the notebook sets are kept (the structural cards
    astropy derives from the data are a function of [data]). *)

Module Fits.

Inductive hdu_data : Type :=
| Image1 (values : list float)
| Image2 (rows : list (list float))
| BinTable (columns : list (string * Np.ndarray)).

Record hdu : Type := Hdu {
  header : list (string * string);
  data : hdu_data;
}.

(** [hdr[key] = value]: replaces the value of the first card with that
    keyword, or adds a card at the end. *)
Fixpoint header_set (hdr : list (string * string)) (key value : string)
    : list (string * string) :=
  match hdr with
  | [] => [(key, value)]
  | (k, v) :: rest =>
      if String.eqb k key then (k, value) :: rest
      else (k, v) :: header_set rest key value
  end.

Fixpoint header_get (hdr : list (string * string)) (key : string) : option string :=
  match hdr with
  | [] => None
  | (k, v) :: rest => if String.eqb k key then Some v else header_get rest key
  end.

(** The name a unit is addressed by, and its unit annotation. *)
Definition extname (h : hdu) : option string := header_get (header h) "EXTNAME".
Definition bunit (h : hdu) : option string := header_get (header h) "BUNIT".

(** [hdus[name]]: the first unit with that name. *)
Definition by_name (name : string) (hdus : list hdu) : option hdu :=
  List.find (λ h, bool_decide (extname h = Some name)) hdus.

(** Shape of an image; [ncols] is the second dimension of a 2D array. *)
Definition ncols (rows : list (list float)) : nat :=
  match rows with [] => 0 | r :: _ => length r end.


End Fits.
Export Fits.

(** ** The kernel the cells run in *)

Record kernel : Type := Kernel {
  environ : gmap string string;     (* os.environ *)
  disk : gmap string (list hdu);    (* regular files, by path *)
  readonly : gset string;           (* paths where no file can be created or replaced *)
  stdout : list string;             (* lines printed so far *)
  exit_code : option Z;             (* user_ns['_exit_code'] *)
}.

Definition set_disk (d : gmap string (list hdu)) (k : kernel) : kernel :=
  Kernel (environ k) d (readonly k) (stdout k) (exit_code k).
Definition set_stdout (out : list string) (k : kernel) : kernel :=
  Kernel (environ k) (disk k) (readonly k) out (exit_code k).
Definition set_exit_code (rc : Z) (k : kernel) : kernel :=
  Kernel (environ k) (disk k) (readonly k) (stdout k) (Some rc).

(** [readonly] holds the paths at which the file system lets nothing be
    created, replaced, removed or extended, as in a directory without write
    permission or on a read-only mount.  The permission bits of a file that
    is there do not matter to it: a file whose directory is writable can be
    replaced whatever its own mode. *)

(** A statement either completes with a value or raises; effects that
    happened before an exception stay. *)
Definition nb (A : Type) : Type := kernel → kernel * outcome A.

Global Instance nb_ret : MRet nb := λ A a k, (k, Ok a).
Global Instance nb_bind : MBind nb := λ A B f m k,
  match m k with
  | (k', Ok a) => f a k'
  | (k', Raise e) => (k', Raise e)
  end.

Definition raise {A} (e : exn) : nb A := λ k, (k, Raise e).

Definition lift {A} (o : outcome A) : nb A := λ k, (k, o).

(** [print(line)] *)
Definition print (line : string) : nb unit :=
  λ k, (set_stdout (stdout k ++ [line]) k, Ok ()).

(** [os.environ[name]] *)
Definition os_environ (name : string) : nb string := λ k,
  match environ k !! name with
  | Some v => (k, Ok v)
  | None => (k, Raise (KeyError name))
  end.

(** [os.makedirs(path, exist_ok=True)].  [disk] holds regular files only:
    directories are not tracked, and a kernel is taken to have or to be able
    to make every directory the notebook asks for.  The one failure kept is
    a regular file that already has the name.  A regular file at a proper
    ancestor of the path and a directory that cannot be made for lack of
    permission are outside the model. *)
Definition os_makedirs (path : string) : nb unit := λ k,
  match disk k !! path with
  | Some _ => (k, Raise (OSError path))
  | None => (k, Ok ())
  end.

(** [fits.writeto(filename, data, header=hdr, overwrite=...)]: a new file
    whose only unit holds [data] under [hdr]; an existing file is removed
    and written anew when [overwrite] is set and is an error otherwise.
    Both the removal and the creation fail at a path in [readonly]. *)
Definition fits_writeto (filename : string) (d : hdu_data)
    (hdr : list (string * string)) (overwrite : bool) : nb unit := λ k,
  if bool_decide (filename ∈ readonly k) then (k, Raise (OSError filename))
  else
    match disk k !! filename with
    | Some _ =>
        if overwrite
        then (set_disk (<[filename := [Hdu hdr d]]> (disk k)) k, Ok ())
        else (k, Raise (OSError filename))
    | None => (set_disk (<[filename := [Hdu hdr d]]> (disk k)) k, Ok ())
    end.

(** [fits.append(filename, data, header=hdr)]: a missing or empty file is
    written as by [writeto]; otherwise one more unit is added at the end.
    The permission bits of files are not tracked: in cell 15 the file
    extended is the one [writeto] has just created. *)
Definition fits_append (filename : string) (d : hdu_data)
    (hdr : list (string * string)) : nb unit := λ k,
  match disk k !! filename with
  | None | Some [] => fits_writeto filename d hdr false k
  | Some hdus =>
      if bool_decide (filename ∈ readonly k) then (k, Raise (OSError filename))
      else (set_disk (<[filename := hdus ++ [Hdu hdr d]]> (disk k)) k, Ok ())
  end.

(** Reading a named unit back: [fits.getdata(filename, name)], and likewise
    [Table.read(filename, name)] and [desispec.io.read_spectra]. *)
Definition fits_open (filename : string) : nb (list hdu) := λ k,
  match disk k !! filename with
  | Some hdus => (k, Ok hdus)
  | None => (k, Raise (FileNotFoundError filename))
  end.

Definition fits_getdata (filename name : string) : nb hdu_data :=
  hdus ← fits_open filename;
  match by_name name hdus with
  | Some h => mret (data h)
  | None => raise (KeyError name)
  end.

(** [table[name]] for a table read from a file or produced in memory.
    Masked entries are not modelled: [Table.read] masks NaN, so the model
    speaks for columns that hold none. *)
Definition column (tbl : hdu_data) (name : string) : outcome Np.ndarray :=
  match tbl with
  | BinTable cols =>
      match List.find (λ c, String.eqb (fst c) name) cols with
      | Some c => Ok (snd c)
      | None => Raise (KeyError name)
      end
  | _ => Raise (KeyError name)
  end.

(** ** The cells *)

Global Instance outcome_ret : MRet outcome := λ A a, Ok a.
Global Instance outcome_bind : MBind outcome := λ A B f o,
  match o with Ok a => f a | Raise e => Raise e end.

(** Cell 15: the input file of the simulator.

    [simdir = os.path.join(os.environ['SCRATCH'], 'desi', 'simspec')],
    [os.makedirs(simdir, exist_ok=True)],
    [infile = os.path.join(simdir, 'qso-input-spectra.fits')], then one
    header object [hdr] is filled, used for [writeto], changed in place and
    used again for [append]. *)
Definition write_input (wave : list float) (flux : list (list float))
    : nb (string * string) :=
  scratch ← os_environ "SCRATCH";
  let simdir := join scratch ["desi"; "simspec"] in
  os_makedirs simdir;;
  let infile := join simdir ["qso-input-spectra.fits"] in
  let hdr := [] in
  let hdr := header_set hdr "EXTNAME" "WAVELENGTH" in
  let hdr := header_set hdr "BUNIT" "Angstrom" in
  fits_writeto infile (Image1 wave) hdr true;;
  let hdr := header_set hdr "EXTNAME" "FLUX" in
  let hdr := header_set hdr "BUNIT" "10^-17 erg/(s*cm^2*Angstrom)" in
  fits_append infile (Image2 flux) hdr;;
  mret (simdir, infile).

(** [cmd = 'quickspectra -i {} -o {}'.format(infile, specoutfile)] *)
Definition cmd_quickspectra (infile specoutfile : string) : outcome string :=
  format "quickspectra -i {} -o {}" [infile; specoutfile] [].

(** [cmd = 'quickspectra -i {} -o {} --moonfrac 0.9 --moonalt 70 --moonsep 20
    --airmass 1.3'.format(infile, specoutfile_moon)] *)
Definition cmd_quickspectra_moon (infile specoutfile_moon : string) : outcome string :=
  format "quickspectra -i {} -o {} --moonfrac 0.9 --moonalt 70 --moonsep 20 --airmass 1.3"
    [infile; specoutfile_moon] [].

Definition srun : string :=
  "srun -A desi -N 1 -t 00:10:00 -C haswell --qos interactive".

(** [name in os.environ]: the variable is set, whatever its value. *)
Definition in_environ (name : string) : nb bool :=
  λ k, (k, Ok (bool_decide (is_Some (environ k !! name)))).

Definition on_nersc (k : kernel) : bool :=
  bool_decide (is_Some (environ k !! "NERSC_HOST")).

(** The lines of cells 22 and 27 that precede the shell escape:
    [cmd = 'rrdesi {} --zbest {}'.format(specoutfile, zoutfile)], and under
    [if 'NERSC_HOST' in os.environ] three prints and
    [cmd = '{srun} {cmd} --mp 32'.format(srun=srun, cmd=cmd)]. *)
Definition cmd_rrdesi (specoutfile zoutfile : string) : nb string :=
  cmd ← lift (format "rrdesi {} --zbest {}" [specoutfile; zoutfile] []);
  batch ← in_environ "NERSC_HOST";
  if batch : bool then
    print "Running on a batch node:";;
    print cmd;;
    print "";;
    lift (format "{srun} {cmd} --mp 32" [] [("srun", srun); ("cmd", cmd)])
  else mret cmd.

(** Cell 29: [dv = 3e5*(zbest['Z'] - meta['REDSHIFT'])/(1+meta['REDSHIFT'])].
    The difference is computed in the result type of the two columns, the
    product with the Python float [3e5] keeps that type, [1+meta['REDSHIFT']]
    is computed in the type of [REDSHIFT], and the quotient again in the
    result type. *)
Definition dv (Z REDSHIFT : Np.ndarray) : outcome Np.ndarray :=
  let p := Np.result_type (Np.dtype_of Z) (Np.dtype_of REDSHIFT) in
  d ← Np.broadcast (Np.sub p) (Np.values Z) (Np.values REDSHIFT);
  q ← Np.broadcast (Np.div p)
        (map (Np.mul p 3e5) d)
        (map (Np.add (Np.dtype_of REDSHIFT) 1) (Np.values REDSHIFT));
  mret (Np.Array p q).

Section Cells.

(** What running a command line does: from the command, the inherited
    environment and the files, an exit status and the files afterwards. *)
Variable system :
  string → gmap string string → gmap string (list hdu) → Z * gmap string (list hdu).

(** [!$cmd]: the value of [cmd] is run by the system shell, and its exit
    status is stored in [_exit_code].  Nothing is raised. *)
Definition shell_escape (cmd : string) : nb unit := λ k,
  let (rc, d) := system cmd (environ k) (disk k) in
  (set_exit_code rc (set_disk d k), Ok ()).

(** Cell 16 *)
Definition run_quickspectra (simdir infile : string) : nb string :=
  let specoutfile := join simdir ["qso-observed-spectra.fits"] in
  cmd ← lift (cmd_quickspectra infile specoutfile);
  print cmd;;
  shell_escape cmd;;
  mret specoutfile.

(** Cell 22 *)
Definition run_rrdesi (simdir specoutfile : string) : nb string :=
  let zoutfile := join simdir ["qso-zbest.fits"] in
  cmd ← cmd_rrdesi specoutfile zoutfile;
  shell_escape cmd;;
  mret zoutfile.

(** Cell 26 *)
Definition run_quickspectra_moon (simdir infile : string) : nb string :=
  let specoutfile_moon := join simdir ["qso-moon-spectra.fits"] in
  cmd ← lift (cmd_quickspectra_moon infile specoutfile_moon);
  print cmd;;
  shell_escape cmd;;
  mret specoutfile_moon.

(** Cell 27 *)
Definition run_rrdesi_moon (simdir specoutfile_moon : string) : nb string :=
  let zoutfile_moon := join simdir ["qso-zbest-moon.fits"] in
  cmd ← cmd_rrdesi specoutfile_moon zoutfile_moon;
  print cmd;;
  shell_escape cmd;;
  mret zoutfile_moon.

(** The path of "Run All" through the files and the commands: cells 15,
    16, 18, 22, 23, 26, 27 and 28 in order, then the two [dv] arrays of cell
    29; the first step that raises stops the run.  [flux], [wave] and [meta]
    come from the template generator of cell 9.  Cell 18 is kept as the
    opening of the simulated spectra; what [read_spectra] makes of the
    contents, the plots of cells 19 and 20 and every [plt] call of cells 24
    and 29 are left out, so a step of the notebook that is not here can stop
    a run that this definition lets go on.  It is used for where a run stops
    before the first plot. *)
Definition run_all (flux : list (list float)) (wave : list float)
    (meta : hdu_data) : nb (Np.ndarray * Np.ndarray) :=
  '(simdir, infile) ← write_input wave flux;
  specoutfile ← run_quickspectra simdir infile;
  _ ← fits_open specoutfile;
  zoutfile ← run_rrdesi simdir specoutfile;
  zbest ← fits_getdata zoutfile "ZBEST";
  _ ← lift (column meta "REDSHIFT");
  _ ← lift (column zbest "Z");
  specoutfile_moon ← run_quickspectra_moon simdir infile;
  zoutfile_moon ← run_rrdesi_moon simdir specoutfile_moon;
  zbest_moon ← fits_getdata zoutfile_moon "ZBEST";
  lift (REDSHIFT ← column meta "REDSHIFT";
        Z ← column zbest "Z";
        Z_moon ← column zbest_moon "Z";
        dv_dark ← dv Z REDSHIFT;
        dv_moon ← dv Z_moon REDSHIFT;
        mret (dv_dark, dv_moon)).

End Cells.

(** ** Plotting (cells 19 and 20)

    The figure is modelled by the sequence of [matplotlib.pyplot] calls made
    on it; the checks matplotlib itself performs on its arguments are not
    part of the model.  [scipy.signal.medfilt] and [numpy.percentile] are
    parameters. *)

Module Spectra.

(** What [desispec.io.read_spectra] returns, as far as the notebook looks
    into it: per band, a wavelength grid and one flux row per object. *)
Record t : Type := Make {
  wave : gmap string (list float);
  flux : gmap string (list (list float));
}.

End Spectra.

Inductive plt_call : Type :=
| Figure (width height : Z)
| Subplot (nrows ncols index : Z)
| Plot (x y : list float) (fmt : string) (alpha : option float)
| Axhline (y : float) (color : string) (alpha : float)
| Ylim (ymin ymax : float)
| Ylabel (label : string)
| Xlabel (label : string).

Definition fig (A : Type) : Type := list plt_call → list plt_call * outcome A.

Global Instance fig_ret : MRet fig := λ A a calls, (calls, Ok a).
Global Instance fig_bind : MBind fig := λ A B f m calls,
  match m calls with
  | (calls', Ok a) => f a calls'
  | (calls', Raise e) => (calls', Raise e)
  end.

Definition plt (c : plt_call) : fig unit := λ calls, (calls ++ [c], Ok ()).

Definition eval {A} (o : outcome A) : fig A := λ calls, (calls, o).

(** [d[key]] on a dict. *)
Definition getitem {A} (d : gmap string A) (key : string) : outcome A :=
  match d !! key with
  | Some v => Ok v
  | None => Raise (KeyError key)
  end.

(** [a[i]] on the first axis of an array: a negative index counts from the
    end, anything outside [-n, n) is an [IndexError]. *)
Definition row {A} (a : list A) (i : Z) : outcome A :=
  let n := Z.of_nat (length a) in
  let j := if (i <? 0)%Z then (n + i)%Z else i in
  if ((0 <=? j) && (j <? n))%Z then
    match a !! Z.to_nat j with
    | Some r => Ok r
    | None => Raise IndexError
    end
  else Raise IndexError.

(** The builtins [min(a, b)] and [max(a, b)] on two floats: the second
    argument replaces the first only when it compares strictly smaller
    (larger). *)
Definition py_min (a b : float) : float := if PrimFloat.ltb b a then b else a.
Definition py_max (a b : float) : float := if PrimFloat.ltb a b then b else a.

(** [for x in xs: body], threading the variables the body assigns. *)
Fixpoint for_each {A S} (xs : list A) (body : A → S → fig S) (s : S) : fig S :=
  match xs with
  | [] => mret s
  | x :: xs' => s' ← body x s; for_each xs' body s'
  end.

Section Plotting.

Variable medfilt : list float → Z → outcome (list float).
Variable percentile : list float → float → outcome float.

(** One of the first three statements of [plotspec]:
    [plt.plot(spectra.wave[band], medfilt(spectra.flux[band][i], nfilter),
    color, alpha=0.5)]. *)
Definition plot_band (spectra : Spectra.t) (i : Z) (nfilter : Z)
    (band color : string) : fig unit :=
  w ← eval (getitem (Spectra.wave spectra) band);
  rows ← eval (getitem (Spectra.flux spectra) band);
  r ← eval (row rows i);
  smooth ← eval (medfilt r nfilter);
  plt (Plot w smooth color (Some 0.5%float)).

(** The body of the loop over the bands:
    [tmpmin, tmpmax = np.percentile(spectra.flux[x][i], [1, 99])],
    [ymin = min(tmpmin, ymin)], [ymax = max(tmpmax, ymax)]. *)
Definition widen (spectra : Spectra.t) (i : Z) (x : string)
    (lim : float * float) : fig (float * float) :=
  rows ← eval (getitem (Spectra.flux spectra) x);
  r ← eval (row rows i);
  tmpmin ← eval (percentile r 1%float);
  tmpmax ← eval (percentile r 99%float);
  mret (py_min tmpmin (fst lim), py_max tmpmax (snd lim)).

(** [def plotspec(spectra, i, truewave=None, trueflux=None, nfilter=11)] *)
Definition plotspec (spectra : Spectra.t) (i : Z)
    (truewave : option (list float)) (trueflux : option (list (list float)))
    (nfilter : Z) : fig unit :=
  plot_band spectra i nfilter "b" "b";;
  plot_band spectra i nfilter "r" "r";;
  plot_band spectra i nfilter "z" "k";;
  match truewave, trueflux with
  | Some tw, Some tf =>
      truth ← eval (row tf i);
      plt (Plot tw truth "k-" None)
  | _, _ => mret ()
  end;;
  plt (Axhline 0%float "k" 0.2%float);;
  lim ← for_each ["b"; "r"; "z"] (widen spectra i) (0.0%float, 0.0%float);
  plt (Ylim (fst lim) (snd lim));;
  plt (Ylabel "flux [1e-17 erg/s/cm2/A]");;
  plt (Xlabel "wavelength [A]").

(** Cell 20: [plt.figure(figsize=(12, 9))], then for [i in range(9)],
    [plt.subplot(3, 3, i+1)] and [plotspec(spectra, i, wave, flux)]. *)
Definition plot_grid (spectra : Spectra.t) (wave : list float)
    (flux : list (list float)) : fig unit :=
  plt (Figure 12 9);;
  for_each (seqZ 0 9)
    (λ i _, plt (Subplot 3 3 (i + 1));; plotspec spectra i (Some wave) (Some flux) 11)
    ().

End Plotting.

(** ** The interface description, read literally

    The two command-line synopses and the unit annotation as the interface
    description writes them; the theorems below compare the cells with
    these. *)

Record conditions : Type := Conditions {
  moonfrac : string;
  moonalt : string;
  moonsep : string;
  airmass : string;
}.

(** [<exe> -i <input_file> -o <output_file> [--moonfrac F] [--moonalt A]
    [--moonsep S] [--airmass X]], the four flags present when observing
    conditions are configured. *)
Definition simulate_synopsis (exe infile outfile : string)
    (c : option conditions) : string :=
  exe +:+ " -i " +:+ infile +:+ " -o " +:+ outfile +:+
  match c with
  | None => ""
  | Some c =>
      " --moonfrac " +:+ moonfrac c +:+ " --moonalt " +:+ moonalt c +:+
      " --moonsep " +:+ moonsep c +:+ " --airmass " +:+ airmass c
  end.

(** [<exe> <input_file> --zbest <output_file>] *)
Definition fit_synopsis (exe infile outfile : string) : string :=
  exe +:+ " " +:+ infile +:+ " --zbest " +:+ outfile.

(** The flux unit annotation as the interface description prints it. *)
Definition flux_unit_described : string := "10^-17 erg/(s·cm²·Å)".

(** The velocity offset with the speed of light given as 299792.458 km/s. *)
Definition dv_described (z_fit z_true : float) : float :=
  (299792.458 * (z_fit - z_true) / (1 + z_true))%float.

(** The velocity offset of one object as cell 29 computes it, for columns
    [Z] and [REDSHIFT] of element types [dZ] and [dR]. *)
Definition dv_object (dZ dR : Np.dtype) (z_fit z_true : float) : float :=
  let p := Np.result_type dZ dR in
  Np.div p (Np.mul p 3e5 (Np.sub p z_fit z_true)) (Np.add dR 1 z_true).

(** The two sections cell 15 writes. *)
Definition wavelength_section (wave : list float) : hdu :=
  Hdu [("EXTNAME", "WAVELENGTH"); ("BUNIT", "Angstrom")] (Image1 wave).
Definition flux_section (flux : list (list float)) : hdu :=
  Hdu [("EXTNAME", "FLUX"); ("BUNIT", "10^-17 erg/(s*cm^2*Angstrom)")] (Image2 flux).

(** ** Kernels and programs used in examples *)

Module Examples.

Definition scratch_only : kernel :=
  Kernel {["SCRATCH" := "/scratch"]} ∅ ∅ [] None.

Definition at_nersc : kernel :=
  Kernel (<["NERSC_HOST" := "cori"]> {["SCRATCH" := "/scratch"]}) ∅ ∅ [] None.

Definition simdir : string := "/scratch/desi/simspec".
Definition infile : string := "/scratch/desi/simspec/qso-input-spectra.fits".

(** Every command fails with status 1 and touches no file. *)
Definition always_fails (cmd : string) (env : gmap string string)
    (d : gmap string (list hdu)) : Z * gmap string (list hdu) :=
  (1%Z, d).

Definition wave3 : list float := [3600%float; 3600.5%float; 3601%float].
Definition flux2x2 : list (list float) :=
  [[1%float; 2%float]; [3%float; 4%float]].
Definition meta1 : hdu_data :=
  BinTable [("REDSHIFT", Np.Array Np.float32 [1.0%float])].

End Examples.

(** ** Auxiliary notions for the properties of the cells *)

(** The kernel after a cell printed [printed] and then ran [cmd] with the
    shell escape. *)
Definition after_command
    (system : string → gmap string string → gmap string (list hdu) →
              Z * gmap string (list hdu))
    (cmd : string) (printed : list string) (k : kernel) : kernel :=
  Kernel (environ k) (system cmd (environ k) (disk k)).2 (readonly k)
    (stdout k ++ printed) (Some (system cmd (environ k) (disk k)).1).

(** The command of the fitting cells for a kernel, written out. *)
Definition rrdesi_command (k : kernel) (specoutfile zoutfile : string) : string :=
  if on_nersc k
  then srun +:+ " rrdesi " +:+ specoutfile +:+ " --zbest " +:+ zoutfile +:+ " --mp 32"
  else "rrdesi " +:+ specoutfile +:+ " --zbest " +:+ zoutfile.

(** What the fitting cells print before the command is rewritten. *)
Definition batch_notice (k : kernel) (specoutfile zoutfile : string) : list string :=
  if on_nersc k
  then ["Running on a batch node:";
        "rrdesi " +:+ specoutfile +:+ " --zbest " +:+ zoutfile; ""]
  else [].

Module Fixtures.

(** Stand-ins for the array functions. *)
Definition medfilt (r : list float) (nfilter : Z) : outcome (list float) := Ok r.

(** First and last sample of a row, as the low and the high percentile. *)
Definition percentile (r : list float) (q : float) : outcome float :=
  match r with
  | [] => Raise IndexError
  | a :: _ => Ok (if PrimFloat.ltb q 50 then a else List.last r a)
  end.

Definition nine : list (list float) :=
  replicate 9 [(-1)%float; 0.5%float; 2%float].

Definition spectra : Spectra.t :=
  Spectra.Make
    (<["b" := [3600%float; 4000%float; 5800%float]]>
      (<["r" := [5760%float; 6000%float; 7620%float]]>
        {["z" := [7520%float; 8000%float; 9824%float]]}))
    (<["b" := nine]> (<["r" := nine]> {["z" := nine]})).

End Fixtures.

(** * Properties *)

(** ** Strings *)

Section StringFacts.

Local Arguments String.append !_ _ / : simpl nomatch.

Lemma append_nil_r (s : string) : s +:+ "" = s.
Proof. induction s as [|c s IH]; cbn; [done|by rewrite IH]. Qed.

Lemma append_assoc (a b c : string) : (a +:+ b) +:+ c = a +:+ b +:+ c.
Proof. induction a as [|x a IH]; cbn; [done|by rewrite IH]. Qed.

Lemma length_append (a b : string) :
  String.length (a +:+ b) = String.length a + String.length b.
Proof. induction a as [|x a IH]; cbn; [done|by rewrite IH]. Qed.

Lemma substring_all (s : string) : String.substring 0 (String.length s) s = s.
Proof. induction s as [|c s IH]; cbn; [done|by rewrite IH]. Qed.

Lemma substring_skip (a b : string) (m k : nat) :
  String.substring (String.length a + m) k (a +:+ b) = String.substring m k b.
Proof. induction a as [|x a IH]; cbn; [done|by rewrite IH]. Qed.

(** A suffix test only looks at the end of the string. *)
Lemma endswith_append (a b p : string) :
  String.length p ≤ String.length b →
  endswith (a +:+ b) p = endswith b p.
Proof.
  intros Hle. unfold endswith. rewrite length_append.
  replace (String.length a + String.length b - String.length p)
    with (String.length a + (String.length b - String.length p)) by lia.
  rewrite substring_skip.
  destruct (Nat.leb_spec (String.length p) (String.length b)); [|lia].
  destruct (Nat.leb_spec (String.length p) (String.length a + String.length b)); [done|lia].
Qed.

Lemma endswith_self (a p : string) : endswith (a +:+ p) p = true.
Proof.
  rewrite endswith_append by done. unfold endswith.
  rewrite Nat.sub_diag, substring_all, String.eqb_refl.
  destruct (Nat.leb_spec (String.length p) (String.length p)); [done|lia].
Qed.

(** A path component without a leading slash stays at the end of the
    joined path. *)
Lemma join_relative (dir file : string) :
  startswith file "/" = false →
  ∃ stem, join dir [file] = stem +:+ file.
Proof.
  intros Hrel. unfold join; simpl. unfold join_step. rewrite Hrel.
  destruct (_ || _).
  - by exists dir.
  - exists (dir +:+ "/"). by rewrite append_assoc.
Qed.

End StringFacts.

(** ** Command lines *)

Section Commands.

Local Arguments String.append !_ _ / : simpl nomatch.

Lemma cmd_quickspectra_eq (infile specoutfile : string) :
  cmd_quickspectra infile specoutfile
  = Ok ("quickspectra -i " +:+ infile +:+ " -o " +:+ specoutfile).
Proof. unfold cmd_quickspectra, format. cbn. by rewrite append_nil_r. Qed.

Lemma cmd_quickspectra_moon_eq (infile specoutfile_moon : string) :
  cmd_quickspectra_moon infile specoutfile_moon
  = Ok ("quickspectra -i " +:+ infile +:+ " -o " +:+ specoutfile_moon +:+
        " --moonfrac 0.9 --moonalt 70 --moonsep 20 --airmass 1.3").
Proof. unfold cmd_quickspectra_moon, format. by cbn. Qed.

(** The fitting command in full: the state only gains printed lines, and
    the command is the [rrdesi] call, wrapped when [NERSC_HOST] is set. *)
Lemma cmd_rrdesi_eq (specoutfile zoutfile : string) (k : kernel) :
  let base := "rrdesi " +:+ specoutfile +:+ " --zbest " +:+ zoutfile in
  cmd_rrdesi specoutfile zoutfile k =
    if on_nersc k
    then (set_stdout (stdout k ++ ["Running on a batch node:"; base; ""]) k,
          Ok (srun +:+ " " +:+ base +:+ " --mp 32"))
    else (k, Ok base).
Proof.
  unfold cmd_rrdesi, on_nersc, in_environ, lift, format.
  unfold mbind, nb_bind, mret, nb_ret. cbn.
  rewrite append_nil_r.
  destruct (bool_decide _); [|done].
  unfold print, set_stdout; cbn. rewrite <- !app_assoc. cbn.
  rewrite !append_assoc. by cbn.
Qed.

End Commands.

Section CommandClaims.

Local Arguments String.append !_ _ / : simpl nomatch.

Lemma endswith_append_true (a b p : string) :
  endswith b p = true → endswith (a +:+ b) p = true.
Proof.
  intros Hb. rewrite endswith_append; [done|].
  unfold endswith in Hb. apply andb_true_iff in Hb as [Hle _].
  by apply Nat.leb_le.
Qed.

Lemma on_nersc_spec (k : kernel) :
  on_nersc k = true ↔ is_Some (environ k !! "NERSC_HOST").
Proof. unfold on_nersc. apply bool_decide_eq_true. Qed.

Lemma on_nersc_false (k : kernel) :
  on_nersc k = false ↔ environ k !! "NERSC_HOST" = None.
Proof.
  unfold on_nersc. rewrite bool_decide_eq_false, <- eq_None_not_Some. done.
Qed.

(** C6 (as amended): for every input and output path the simulation
    command is [quickspectra -i <input_file> -o <output_file>], and in the
    bright-moon run it is followed by
    [--moonfrac 0.9 --moonalt 70 --moonsep 20 --airmass 1.3] and by nothing
    else.  The executable is [quickspectra]. *)
Theorem quickspectra_command_synopsis (infile outfile : string) :
  cmd_quickspectra infile outfile
    = Ok (simulate_synopsis "quickspectra" infile outfile None)
  ∧ cmd_quickspectra_moon infile outfile
    = Ok (simulate_synopsis "quickspectra" infile outfile
            (Some (Conditions "0.9" "70" "20" "1.3"))).
Proof.
  rewrite cmd_quickspectra_eq, cmd_quickspectra_moon_eq.
  unfold simulate_synopsis; cbn. rewrite append_nil_r.
  split; [done|]. do 2 f_equal.
Qed.

(** C6 as stated fails: the command that is built names [quickspectra],
    so it differs from the synopsis with the executable [simulate]. *)
Lemma simulate_is_not_the_executable :
  cmd_quickspectra "in.fits" "out.fits" = Ok "quickspectra -i in.fits -o out.fits"
  ∧ simulate_synopsis "simulate" "in.fits" "out.fits" None
    = "simulate -i in.fits -o out.fits"
  ∧ String.eqb "quickspectra -i in.fits -o out.fits"
      "simulate -i in.fits -o out.fits" = false.
Proof. by vm_compute. Qed.

(** C7 (as amended): the fitting command starts with the [srun] wrapper
    if and only if [NERSC_HOST] is in the environment, and in either case
    the base command is [rrdesi <input_file> --zbest <output_file>]. *)
Theorem rrdesi_wrapped_iff_nersc_host (k : kernel) (specoutfile zoutfile : string) :
  ∃ cmd,
    (cmd_rrdesi specoutfile zoutfile k).2 = Ok cmd
    ∧ (startswith cmd (srun +:+ " ") = true ↔ is_Some (environ k !! "NERSC_HOST"))
    ∧ (is_Some (environ k !! "NERSC_HOST") →
       cmd = srun +:+ " " +:+ fit_synopsis "rrdesi" specoutfile zoutfile +:+ " --mp 32")
    ∧ (environ k !! "NERSC_HOST" = None →
       cmd = fit_synopsis "rrdesi" specoutfile zoutfile).
Proof.
  pose proof (cmd_rrdesi_eq specoutfile zoutfile k) as Heq. cbn zeta in Heq.
  rewrite Heq. clear Heq. unfold fit_synopsis.
  destruct (on_nersc k) eqn:Hn; eexists; (split; [reflexivity|]);
    rewrite <- on_nersc_spec, <- on_nersc_false, Hn.
  - split; [by cbn|]. split; [|done]. intros _.
    by rewrite !append_assoc.
  - split; [by cbn|]. done.
Qed.

(** C7 as stated fails: without [NERSC_HOST] the command is the [rrdesi]
    call, not a call of an executable named [fit-redshifts]. *)
Lemma fit_redshifts_is_not_the_executable :
  (cmd_rrdesi "spectra.fits" "zbest.fits" Examples.scratch_only).2
    = Ok "rrdesi spectra.fits --zbest zbest.fits"
  ∧ fit_synopsis "fit-redshifts" "spectra.fits" "zbest.fits"
    = "fit-redshifts spectra.fits --zbest zbest.fits"
  ∧ String.eqb "rrdesi spectra.fits --zbest zbest.fits"
      "fit-redshifts spectra.fits --zbest zbest.fits" = false.
Proof. by vm_compute. Qed.

(** C10: in cells 22 and 27 the command ends with [--mp 32] exactly when
    [NERSC_HOST] is set, which is exactly when it starts with the [srun]
    wrapper; without [NERSC_HOST] it is the bare [rrdesi] call. *)
Theorem mp_flag_iff_batch_wrapper (k : kernel) (simdir specoutfile zbest : string) :
  zbest ∈ ["qso-zbest.fits"; "qso-zbest-moon.fits"] →
  let zoutfile := join simdir [zbest] in
  ∃ cmd,
    (cmd_rrdesi specoutfile zoutfile k).2 = Ok cmd
    ∧ (endswith cmd " --mp 32" = true ↔ is_Some (environ k !! "NERSC_HOST"))
    ∧ (endswith cmd " --mp 32" = true ↔ startswith cmd (srun +:+ " ") = true)
    ∧ (is_Some (environ k !! "NERSC_HOST") →
       cmd = srun +:+ " rrdesi " +:+ specoutfile +:+ " --zbest " +:+ zoutfile +:+ " --mp 32")
    ∧ (environ k !! "NERSC_HOST" = None →
       cmd = "rrdesi " +:+ specoutfile +:+ " --zbest " +:+ zoutfile).
Proof.
  intros Hname zoutfile.
  pose proof (cmd_rrdesi_eq specoutfile zoutfile k) as Heq. cbn zeta in Heq.
  rewrite Heq. clear Heq.
  destruct (on_nersc k) eqn:Hn; eexists; (split; [reflexivity|]);
    rewrite <- on_nersc_spec, <- on_nersc_false, Hn.
  - assert (endswith (srun +:+ " " +:+ ("rrdesi " +:+ specoutfile +:+ " --zbest " +:+ zoutfile) +:+ " --mp 32") " --mp 32" = true) as Hend.
    { do 2 apply endswith_append_true. apply endswith_self. }
    rewrite Hend. repeat split; try done.
    intros _. by rewrite !append_assoc.
  - assert (endswith ("rrdesi " +:+ specoutfile +:+ " --zbest " +:+ zoutfile) " --mp 32" = false) as Hend.
    { assert (startswith zbest "/" = false ∧ endswith zbest " --mp 32" = false
              ∧ 8 ≤ String.length zbest) as (Hrel & Hz & Hlen).
      { apply elem_of_cons in Hname as [->|Hname]; [by vm_compute; repeat split; lia|].
        apply list_elem_of_singleton in Hname as ->. vm_compute; repeat split; lia. }
      destruct (join_relative simdir zbest Hrel) as [stem Hstem].
      subst zoutfile. rewrite Hstem.
      rewrite !endswith_append; [done|..];
        rewrite ?length_append; cbn; lia. }
    rewrite Hend. repeat split; try done.
Qed.

Lemma mp_flag_iff_batch_wrapper_witness :
  "qso-zbest.fits" ∈ ["qso-zbest.fits"; "qso-zbest-moon.fits"]
  ∧ ∃ cmd,
      (cmd_rrdesi "/scratch/desi/simspec/qso-observed-spectra.fits"
         (join Examples.simdir ["qso-zbest.fits"]) Examples.at_nersc).2 = Ok cmd
      ∧ (endswith cmd " --mp 32" = true
         ↔ is_Some (environ Examples.at_nersc !! "NERSC_HOST"))
      ∧ (endswith cmd " --mp 32" = true ↔ startswith cmd (srun +:+ " ") = true)
      ∧ (is_Some (environ Examples.at_nersc !! "NERSC_HOST") →
         cmd = srun +:+ " rrdesi " +:+ "/scratch/desi/simspec/qso-observed-spectra.fits"
               +:+ " --zbest " +:+ join Examples.simdir ["qso-zbest.fits"] +:+ " --mp 32")
      ∧ (environ Examples.at_nersc !! "NERSC_HOST" = None →
         cmd = "rrdesi " +:+ "/scratch/desi/simspec/qso-observed-spectra.fits"
               +:+ " --zbest " +:+ join Examples.simdir ["qso-zbest.fits"]).
Proof.
  split; [by left|].
  apply (mp_flag_iff_batch_wrapper Examples.at_nersc Examples.simdir
           "/scratch/desi/simspec/qso-observed-spectra.fits" "qso-zbest.fits").
  by left.
Defined.

End CommandClaims.

(** ** The input file *)

Section InputFile.

Lemma hdr_wavelength :
  header_set (header_set [] "EXTNAME" "WAVELENGTH") "BUNIT" "Angstrom"
  = [("EXTNAME", "WAVELENGTH"); ("BUNIT", "Angstrom")].
Proof. reflexivity. Qed.

(** The header object is reused: setting the two keywords again replaces
    their values and adds no card. *)
Lemma hdr_flux :
  header_set
    (header_set [("EXTNAME", "WAVELENGTH"); ("BUNIT", "Angstrom")] "EXTNAME" "FLUX")
    "BUNIT" "10^-17 erg/(s*cm^2*Angstrom)"
  = [("EXTNAME", "FLUX"); ("BUNIT", "10^-17 erg/(s*cm^2*Angstrom)")].
Proof. reflexivity. Qed.

(** What cell 15 does when it can write: whatever was at the path is
    replaced by a file of exactly the two sections. *)
Lemma write_input_ok (k : kernel) (wave : list float) (flux : list (list float))
    (scratch : string) :
  environ k !! "SCRATCH" = Some scratch →
  let simdir := join scratch ["desi"; "simspec"] in
  let infile := join simdir ["qso-input-spectra.fits"] in
  disk k !! simdir = None →
  infile ∉ readonly k →
  write_input wave flux k
  = (set_disk (<[infile := [wavelength_section wave; flux_section flux]]> (disk k)) k,
     Ok (simdir, infile)).
Proof.
  intros Henv simdir infile Hdir Hrw.
  unfold write_input, mbind, nb_bind, os_environ. rewrite Henv.
  fold simdir. unfold os_makedirs. rewrite Hdir. fold infile.
  cbv zeta. rewrite hdr_wavelength, hdr_flux.
  fold (wavelength_section wave) (flux_section flux).
  set (k1 := set_disk (<[infile := [wavelength_section wave]]> (disk k)) k).
  assert (fits_writeto infile (Image1 wave)
            [("EXTNAME", "WAVELENGTH"); ("BUNIT", "Angstrom")] true k
          = (k1, Ok ())) as ->.
  { unfold fits_writeto. rewrite bool_decide_eq_false_2 by done.
    by destruct (disk k !! infile). }
  unfold fits_append, k1. cbn [disk set_disk readonly].
  rewrite lookup_insert_eq. cbn [wavelength_section].
  rewrite bool_decide_eq_false_2 by done.
  by rewrite insert_insert_eq.
Qed.

(** C3 (as amended): for every wavelength grid and flux table, cell 15
    leaves at the target path a file of exactly two sections, [WAVELENGTH]
    with the 1D grid and unit [Angstrom], then [FLUX] with the 2D table and
    unit [10^-17 erg/(s*cm^2*Angstrom)]; what was at the path before does
    not matter, and no other file changes. *)
Theorem write_input_two_sections (k : kernel) (wave : list float)
    (flux : list (list float)) (scratch : string) :
  environ k !! "SCRATCH" = Some scratch →
  let simdir := join scratch ["desi"; "simspec"] in
  let infile := join simdir ["qso-input-spectra.fits"] in
  disk k !! simdir = None →
  infile ∉ readonly k →
  ∃ k',
    write_input wave flux k = (k', Ok (simdir, infile))
    ∧ disk k' !! infile
      = Some [Hdu [("EXTNAME", "WAVELENGTH"); ("BUNIT", "Angstrom")] (Image1 wave);
              Hdu [("EXTNAME", "FLUX"); ("BUNIT", "10^-17 erg/(s*cm^2*Angstrom)")]
                (Image2 flux)]
    ∧ ∀ p, p ≠ infile → disk k' !! p = disk k !! p.
Proof.
  intros Henv simdir infile Hdir Hrw. eexists. split.
  - by apply write_input_ok.
  - cbn [disk set_disk]. split; [by rewrite lookup_insert_eq|].
    intros p Hp. by rewrite lookup_insert_ne.
Qed.

Lemma write_input_two_sections_witness :
  environ Examples.scratch_only !! "SCRATCH" = Some "/scratch"
  ∧ ∃ k',
      write_input Examples.wave3 Examples.flux2x2 Examples.scratch_only
      = (k', Ok (Examples.simdir, Examples.infile))
      ∧ disk k' !! Examples.infile
        = Some [Hdu [("EXTNAME", "WAVELENGTH"); ("BUNIT", "Angstrom")]
                  (Image1 Examples.wave3);
                Hdu [("EXTNAME", "FLUX"); ("BUNIT", "10^-17 erg/(s*cm^2*Angstrom)")]
                  (Image2 Examples.flux2x2)]
      ∧ ∀ p, p ≠ Examples.infile → disk k' !! p = disk Examples.scratch_only !! p.
Proof.
  split; [reflexivity|].
  apply (write_input_two_sections Examples.scratch_only Examples.wave3
           Examples.flux2x2 "/scratch"); [reflexivity|reflexivity|].
  apply not_elem_of_empty.
Defined.

(** C3 as stated fails: the unit annotation written for [FLUX] is the
    ASCII text of the cell, not the typeset unit of the description. *)
Lemma flux_unit_is_plain_ascii :
  (hdus ← disk (write_input Examples.wave3 Examples.flux2x2 Examples.scratch_only).1
            !! Examples.infile;
   h ← by_name "FLUX" hdus;
   bunit h) = Some "10^-17 erg/(s*cm^2*Angstrom)"
  ∧ String.eqb "10^-17 erg/(s*cm^2*Angstrom)" flux_unit_described = false.
Proof. by vm_compute. Qed.

(** C4: reading the two sections back by name after cell 15 returns the
    wavelength grid and the flux table that were written, value for value,
    and leaves the file as it is. *)
Theorem write_input_read_back (k : kernel) (wave : list float)
    (flux : list (list float)) (scratch : string) :
  environ k !! "SCRATCH" = Some scratch →
  let simdir := join scratch ["desi"; "simspec"] in
  let infile := join simdir ["qso-input-spectra.fits"] in
  disk k !! simdir = None →
  infile ∉ readonly k →
  ∃ k',
    write_input wave flux k = (k', Ok (simdir, infile))
    ∧ fits_getdata infile "WAVELENGTH" k' = (k', Ok (Image1 wave))
    ∧ fits_getdata infile "FLUX" k' = (k', Ok (Image2 flux)).
Proof.
  intros Henv simdir infile Hdir Hrw. eexists. split.
  - by apply write_input_ok.
  - unfold fits_getdata, fits_open, mbind, nb_bind. cbn [disk set_disk].
    rewrite lookup_insert_eq. split; reflexivity.
Qed.

Lemma write_input_read_back_witness :
  environ Examples.scratch_only !! "SCRATCH" = Some "/scratch"
  ∧ ∃ k',
      write_input Examples.wave3 Examples.flux2x2 Examples.scratch_only
      = (k', Ok (Examples.simdir, Examples.infile))
      ∧ fits_getdata Examples.infile "WAVELENGTH" k' = (k', Ok (Image1 Examples.wave3))
      ∧ fits_getdata Examples.infile "FLUX" k' = (k', Ok (Image2 Examples.flux2x2)).
Proof.
  split; [reflexivity|].
  apply (write_input_read_back Examples.scratch_only Examples.wave3
           Examples.flux2x2 "/scratch"); [reflexivity|reflexivity|].
  apply not_elem_of_empty.
Defined.




End InputFile.

(** ** Running the external programs *)

Section ShellEscape.

Variable system :
  string → gmap string string → gmap string (list hdu) → Z * gmap string (list hdu).

(** The shell escape completes normally, whatever the exit status. *)
Lemma shell_escape_completes (cmd : string) (k : kernel) :
  shell_escape system cmd k
  = (set_exit_code (system cmd (environ k) (disk k)).1
       (set_disk (system cmd (environ k) (disk k)).2 k), Ok ()).
Proof. unfold shell_escape. by destruct (system _ _ _). Qed.

Lemma run_quickspectra_completes (simdir infile : string) (k : kernel) :
  ∃ cmd k',
    cmd_quickspectra infile (join simdir ["qso-observed-spectra.fits"]) = Ok cmd
    ∧ run_quickspectra system simdir infile k
      = (k', Ok (join simdir ["qso-observed-spectra.fits"]))
    ∧ exit_code k' = Some (system cmd (environ k) (disk k)).1.
Proof.
  unfold run_quickspectra. rewrite cmd_quickspectra_eq.
  do 2 eexists. split; [done|].
  unfold mbind, nb_bind, lift, print. rewrite shell_escape_completes.
  split; reflexivity.
Qed.

Lemma run_quickspectra_moon_completes (simdir infile : string) (k : kernel) :
  ∃ cmd k',
    cmd_quickspectra_moon infile (join simdir ["qso-moon-spectra.fits"]) = Ok cmd
    ∧ run_quickspectra_moon system simdir infile k
      = (k', Ok (join simdir ["qso-moon-spectra.fits"]))
    ∧ exit_code k' = Some (system cmd (environ k) (disk k)).1.
Proof.
  unfold run_quickspectra_moon. rewrite cmd_quickspectra_moon_eq.
  do 2 eexists. split; [done|].
  unfold mbind, nb_bind, lift, print. rewrite shell_escape_completes.
  split; reflexivity.
Qed.

Lemma run_rrdesi_completes (simdir specoutfile : string) (k : kernel) :
  ∃ cmd k',
    (cmd_rrdesi specoutfile (join simdir ["qso-zbest.fits"]) k).2 = Ok cmd
    ∧ run_rrdesi system simdir specoutfile k = (k', Ok (join simdir ["qso-zbest.fits"]))
    ∧ exit_code k' = Some (system cmd (environ k) (disk k)).1.
Proof.
  unfold run_rrdesi, mbind, nb_bind.
  pose proof (cmd_rrdesi_eq specoutfile (join simdir ["qso-zbest.fits"]) k) as Heq.
  cbn zeta in Heq. rewrite Heq. clear Heq.
  destruct (on_nersc k); do 2 eexists; (split; [reflexivity|]);
    rewrite shell_escape_completes; split; reflexivity.
Qed.

Lemma run_rrdesi_moon_completes (simdir specoutfile_moon : string) (k : kernel) :
  ∃ cmd k',
    (cmd_rrdesi specoutfile_moon (join simdir ["qso-zbest-moon.fits"]) k).2 = Ok cmd
    ∧ run_rrdesi_moon system simdir specoutfile_moon k
      = (k', Ok (join simdir ["qso-zbest-moon.fits"]))
    ∧ exit_code k' = Some (system cmd (environ k) (disk k)).1.
Proof.
  unfold run_rrdesi_moon, mbind, nb_bind.
  pose proof (cmd_rrdesi_eq specoutfile_moon (join simdir ["qso-zbest-moon.fits"]) k) as Heq.
  cbn zeta in Heq. rewrite Heq. clear Heq.
  destruct (on_nersc k); do 2 eexists; (split; [reflexivity|]);
    unfold print; rewrite shell_escape_completes; split; reflexivity.
Qed.

(** C2 (as amended): each of the four cells that run [quickspectra] or
    [rrdesi] completes without raising, whatever exit status the
    subprocess returns: the status is stored in [_exit_code] and nothing
    looks at it, so a run continues with the next cell. *)
Theorem exit_status_is_only_recorded (simdir infile specoutfile : string) (k : kernel) :
  (∃ cmd k',
     cmd_quickspectra infile (join simdir ["qso-observed-spectra.fits"]) = Ok cmd
     ∧ run_quickspectra system simdir infile k
       = (k', Ok (join simdir ["qso-observed-spectra.fits"]))
     ∧ exit_code k' = Some (system cmd (environ k) (disk k)).1)
  ∧ (∃ cmd k',
       cmd_quickspectra_moon infile (join simdir ["qso-moon-spectra.fits"]) = Ok cmd
       ∧ run_quickspectra_moon system simdir infile k
         = (k', Ok (join simdir ["qso-moon-spectra.fits"]))
       ∧ exit_code k' = Some (system cmd (environ k) (disk k)).1)
  ∧ (∃ cmd k',
       (cmd_rrdesi specoutfile (join simdir ["qso-zbest.fits"]) k).2 = Ok cmd
       ∧ run_rrdesi system simdir specoutfile k
         = (k', Ok (join simdir ["qso-zbest.fits"]))
       ∧ exit_code k' = Some (system cmd (environ k) (disk k)).1)
  ∧ (∃ cmd k',
       (cmd_rrdesi specoutfile (join simdir ["qso-zbest-moon.fits"]) k).2 = Ok cmd
       ∧ run_rrdesi_moon system simdir specoutfile k
         = (k', Ok (join simdir ["qso-zbest-moon.fits"]))
       ∧ exit_code k' = Some (system cmd (environ k) (disk k)).1).
Proof.
  split; [apply run_quickspectra_completes|].
  split; [apply run_quickspectra_moon_completes|].
  split; [apply run_rrdesi_completes|apply run_rrdesi_moon_completes].
Qed.

End ShellEscape.

(** C2 as stated fails: every command exits with status 1, and each of the
    four invoking cells still completes with its output path, the failure
    showing only in [_exit_code]. *)
Lemma failed_subprocesses_go_unnoticed :
  (run_quickspectra Examples.always_fails Examples.simdir Examples.infile
     Examples.scratch_only).2
    = Ok "/scratch/desi/simspec/qso-observed-spectra.fits"
  ∧ exit_code (run_quickspectra Examples.always_fails Examples.simdir Examples.infile
                 Examples.scratch_only).1 = Some 1%Z
  ∧ (run_rrdesi Examples.always_fails Examples.simdir
       "/scratch/desi/simspec/qso-observed-spectra.fits" Examples.at_nersc).2
    = Ok "/scratch/desi/simspec/qso-zbest.fits"
  ∧ exit_code (run_rrdesi Examples.always_fails Examples.simdir
                 "/scratch/desi/simspec/qso-observed-spectra.fits"
                 Examples.at_nersc).1 = Some 1%Z
  ∧ (run_quickspectra_moon Examples.always_fails Examples.simdir Examples.infile
       Examples.scratch_only).2
    = Ok "/scratch/desi/simspec/qso-moon-spectra.fits"
  ∧ exit_code (run_quickspectra_moon Examples.always_fails Examples.simdir
                 Examples.infile Examples.scratch_only).1 = Some 1%Z
  ∧ (run_rrdesi_moon Examples.always_fails Examples.simdir
       "/scratch/desi/simspec/qso-moon-spectra.fits" Examples.scratch_only).2
    = Ok "/scratch/desi/simspec/qso-zbest-moon.fits"
  ∧ exit_code (run_rrdesi_moon Examples.always_fails Examples.simdir
                 "/scratch/desi/simspec/qso-moon-spectra.fits"
                 Examples.scratch_only).1 = Some 1%Z.
Proof. by vm_compute. Qed.

(** ** Velocity offsets *)

Section VelocityOffset.

Lemma broadcast_same_length (f : float → float → float) (x y : list float) :
  length x = length y → Np.broadcast f x y = Ok (zip_with f x y).
Proof. intros Hlen. unfold Np.broadcast. by rewrite Hlen, Nat.eqb_refl. Qed.

Lemma dv_zip (dZ dR : Np.dtype) (Z REDSHIFT : list float) :
  zip_with (Np.div (Np.result_type dZ dR))
    (map (Np.mul (Np.result_type dZ dR) 3e5)
       (zip_with (Np.sub (Np.result_type dZ dR)) Z REDSHIFT))
    (map (Np.add dR 1) REDSHIFT)
  = zip_with (dv_object dZ dR) Z REDSHIFT.
Proof.
  revert REDSHIFT. induction Z as [|z Z IH]; intros [|r R]; simpl; try done.
  by rewrite IH.
Qed.

Lemma dv_same_length (Z REDSHIFT : Np.ndarray) :
  length (Np.values Z) = length (Np.values REDSHIFT) →
  dv Z REDSHIFT
  = Ok (Np.Array (Np.result_type (Np.dtype_of Z) (Np.dtype_of REDSHIFT))
          (zip_with (dv_object (Np.dtype_of Z) (Np.dtype_of REDSHIFT))
             (Np.values Z) (Np.values REDSHIFT))).
Proof.
  intros Hlen. unfold dv. cbv zeta.
  rewrite broadcast_same_length by done. cbn [mbind outcome_bind].
  rewrite broadcast_same_length, dv_zip; [done|].
  rewrite !length_map, length_zip_with. lia.
Qed.

(** C1 (as amended): for two columns of equal length that hold no NaN, the
    velocity offset of every object is [3e5 * (z_fit - z_true) / (1 +
    z_true)], the speed of light being rounded to 3e5 km/s, where the
    difference, the product and the quotient are rounded in the result type
    of the two columns and [1 + z_true] in the type of [REDSHIFT]; for
    z_true = 1.0 and a binary64 z_fit = 1.001 the result is 150 km/s up to
    rounding (149.99999999998349), whether [REDSHIFT] is float32 or
    float64. *)
Theorem dv_per_object (Z REDSHIFT : Np.ndarray) :
  length (Np.values Z) = length (Np.values REDSHIFT) →
  Forall (λ z, PrimFloat.is_nan z = false) (Np.values Z) →
  Forall (λ z, PrimFloat.is_nan z = false) (Np.values REDSHIFT) →
  let p := Np.result_type (Np.dtype_of Z) (Np.dtype_of REDSHIFT) in
  ∃ out,
    dv Z REDSHIFT = Ok (Np.Array p out)
    ∧ length out = length (Np.values Z)
    ∧ (∀ i z_fit z_true,
         Np.values Z !! i = Some z_fit → Np.values REDSHIFT !! i = Some z_true →
         out !! i
         = Some (Np.div p (Np.mul p 3e5 (Np.sub p z_fit z_true))
                   (Np.add (Np.dtype_of REDSHIFT) 1 z_true)))
    ∧ dv (Np.Array Np.float64 [1.001%float]) (Np.Array Np.float32 [1.0%float])
      = Ok (Np.Array Np.float64 [149.99999999998349%float])
    ∧ dv (Np.Array Np.float64 [1.001%float]) (Np.Array Np.float64 [1.0%float])
      = Ok (Np.Array Np.float64 [149.99999999998349%float])
    ∧ PrimFloat.ltb (PrimFloat.abs (149.99999999998349 - 150)) 1e-10 = true.
Proof.
  intros Hlen _ _ p.
  exists (zip_with (dv_object (Np.dtype_of Z) (Np.dtype_of REDSHIFT))
            (Np.values Z) (Np.values REDSHIFT)).
  split; [by apply dv_same_length|].
  split; [rewrite length_zip_with; lia|].
  split; [|by vm_compute].
  intros i z_fit z_true Hz Hr. rewrite lookup_zip_with, Hz, Hr. done.
Qed.

Lemma dv_per_object_witness :
  length [1.001%float] = length [1.0%float]
  ∧ ∃ out,
      dv (Np.Array Np.float64 [1.001%float]) (Np.Array Np.float32 [1.0%float])
      = Ok (Np.Array Np.float64 out)
      ∧ length out = 1
      ∧ (∀ i z_fit z_true,
           [1.001%float] !! i = Some z_fit → [1.0%float] !! i = Some z_true →
           out !! i
           = Some (Np.div Np.float64
                     (Np.mul Np.float64 3e5 (Np.sub Np.float64 z_fit z_true))
                     (Np.add Np.float32 1 z_true)))
      ∧ dv (Np.Array Np.float64 [1.001%float]) (Np.Array Np.float32 [1.0%float])
        = Ok (Np.Array Np.float64 [149.99999999998349%float])
      ∧ dv (Np.Array Np.float64 [1.001%float]) (Np.Array Np.float64 [1.0%float])
        = Ok (Np.Array Np.float64 [149.99999999998349%float])
      ∧ PrimFloat.ltb (PrimFloat.abs (149.99999999998349 - 150)) 1e-10 = true.
Proof.
  split; [reflexivity|].
  apply (dv_per_object (Np.Array Np.float64 [1.001%float])
           (Np.Array Np.float32 [1.0%float])).
  - reflexivity.
  - by repeat constructor.
  - by repeat constructor.
Defined.

(** C1 as stated fails: at z_true = 1.0 and z_fit = 1.001 the computed
    offset is 149.99999999998349 km/s, which is neither the value of the
    formula with c = 299792.458 km/s nor within 0.1 km/s of 149.85. *)
Lemma dv_is_not_the_described_offset :
  dv (Np.Array Np.float64 [1.001%float]) (Np.Array Np.float32 [1.0%float])
    = Ok (Np.Array Np.float64 [149.99999999998349%float])
  ∧ dv (Np.Array Np.float64 [1.001%float]) (Np.Array Np.float64 [1.0%float])
    = Ok (Np.Array Np.float64 [149.99999999998349%float])
  ∧ dv_described 1.001 1.0 = 149.89622899998349%float
  ∧ PrimFloat.ltb 0.1 (149.99999999998349 - dv_described 1.001 1.0) = true
  ∧ PrimFloat.ltb 0.1 (149.99999999998349 - 149.85) = true.
Proof. by vm_compute. Qed.

End VelocityOffset.

(** * Further properties of the cells *)

(** ** Paths *)

Section Paths.

Local Arguments String.append !_ _ / : simpl nomatch.

(** Joining one relative component: the separator is added unless the
    directory is empty or already ends with one. *)
Lemma join_relative_eq (dir file : string) :
  startswith file "/" = false →
  join dir [file]
  = (if String.eqb dir "" || endswith dir "/" then dir else dir +:+ "/") +:+ file.
Proof.
  intros Hrel. unfold join; simpl. unfold join_step. rewrite Hrel.
  destruct (_ || _); [done|]. by rewrite append_assoc.
Qed.

Lemma append_not_empty (a b : string) : b ≠ "" → String.eqb (a +:+ b) "" = false.
Proof.
  intros Hb. apply String.eqb_neq. intros Heq.
  apply (f_equal String.length) in Heq. rewrite length_append in Heq.
  destruct b; [done|]. cbn in Heq. lia.
Qed.

(** X7: for every value of [SCRATCH], the working directory is
    [SCRATCH/desi/simspec] with exactly one separator after [SCRATCH] (none
    when [SCRATCH] is empty or ends with a slash), and every file the
    notebook names with a relative name is that directory, one slash, and
    the name. *)
Theorem scratch_layout (scratch file : string) :
  startswith file "/" = false →
  join scratch ["desi"; "simspec"]
  = scratch +:+ (if String.eqb scratch "" || endswith scratch "/" then "" else "/")
    +:+ "desi/simspec"
  ∧ join (join scratch ["desi"; "simspec"]) [file]
    = join scratch ["desi"; "simspec"] +:+ "/" +:+ file.
Proof.
  intros Hrel.
  assert (join scratch ["desi"; "simspec"]
          = (scratch +:+ (if String.eqb scratch "" || endswith scratch "/"
                          then "" else "/")) +:+ "desi/simspec") as Hdir.
  { change (join scratch ["desi"; "simspec"])
      with (join (join scratch ["desi"]) ["simspec"]).
    rewrite (join_relative_eq scratch "desi") by done.
    rewrite join_relative_eq by done.
    rewrite append_not_empty by done.
    rewrite endswith_append by (cbn; lia).
    change (endswith "desi" "/") with false. cbn [orb].
    destruct (_ || _); [rewrite append_nil_r|]; by rewrite !append_assoc. }
  split; [by rewrite Hdir, append_assoc|].
  rewrite join_relative_eq by done.
  rewrite Hdir at 1 2.
  rewrite append_not_empty by done.
  rewrite endswith_append by (cbn; lia).
  change (endswith "desi/simspec" "/") with false. cbn [orb].
  by rewrite !append_assoc.
Qed.

Lemma scratch_layout_witness :
  startswith "qso-input-spectra.fits" "/" = false
  ∧ join "/scratch/" ["desi"; "simspec"]
    = "/scratch/" +:+ (if String.eqb "/scratch/" "" || endswith "/scratch/" "/"
                       then "" else "/") +:+ "desi/simspec"
  ∧ join (join "/scratch/" ["desi"; "simspec"]) ["qso-input-spectra.fits"]
    = join "/scratch/" ["desi"; "simspec"] +:+ "/" +:+ "qso-input-spectra.fits".
Proof.
  split; [reflexivity|].
  apply (scratch_layout "/scratch/" "qso-input-spectra.fits"). reflexivity.
Defined.

(** X6: whatever the working directory, the input file, the two simulated
    spectra files and the two redshift files are five different paths. *)
Theorem five_files_are_distinct (simdir : string) :
  NoDup [join simdir ["qso-input-spectra.fits"];
         join simdir ["qso-observed-spectra.fits"];
         join simdir ["qso-zbest.fits"];
         join simdir ["qso-moon-spectra.fits"];
         join simdir ["qso-zbest-moon.fits"]].
Proof.
  rewrite !join_relative_eq by done.
  set (stem := if String.eqb simdir "" || endswith simdir "/"
               then simdir else simdir +:+ "/").
  change (NoDup (String.app stem <$>
                   ["qso-input-spectra.fits"; "qso-observed-spectra.fits";
                    "qso-zbest.fits"; "qso-moon-spectra.fits";
                    "qso-zbest-moon.fits"])).
  apply NoDup_fmap_2; [apply _|].
  compute_done.
Qed.

End Paths.

(** ** Cell 15 run without [SCRATCH], and run twice *)

Section InputFileCases.

Local Arguments String.append !_ _ / : simpl nomatch.

Lemma write_input_no_scratch (k : kernel) (wave : list float) (flux : list (list float)) :
  environ k !! "SCRATCH" = None →
  write_input wave flux k = (k, Raise (KeyError "SCRATCH")).
Proof.
  intros Henv. unfold write_input, mbind, nb_bind, os_environ. by rewrite Henv.
Qed.

Lemma infile_is_not_simdir (simdir : string) :
  join simdir ["qso-input-spectra.fits"] ≠ simdir.
Proof.
  rewrite join_relative_eq by done. intros Heq.
  apply (f_equal String.length) in Heq. revert Heq.
  destruct (_ || _); rewrite ?length_append; cbn; lia.
Qed.

(** X5: running cell 15 again replaces the input file instead of growing
    it: after two runs the kernel is the one a single run with the second
    pair of arrays leaves. *)
Theorem write_input_twice (k : kernel) (wave1 wave2 : list float)
    (flux1 flux2 : list (list float)) (scratch : string) :
  environ k !! "SCRATCH" = Some scratch →
  let simdir := join scratch ["desi"; "simspec"] in
  let infile := join simdir ["qso-input-spectra.fits"] in
  disk k !! simdir = None →
  infile ∉ readonly k →
  write_input wave2 flux2 (write_input wave1 flux1 k).1 = write_input wave2 flux2 k
  ∧ (disk (write_input wave2 flux2 (write_input wave1 flux1 k).1).1 !! infile)
    = Some [wavelength_section wave2; flux_section flux2].
Proof.
  intros Henv simdir infile Hdir Hrw.
  rewrite (write_input_ok k wave1 flux1 scratch) by done.
  rewrite (write_input_ok k wave2 flux2 scratch) by done.
  cbn [fst]. fold simdir infile.
  rewrite (write_input_ok _ wave2 flux2 scratch); cbn [environ disk readonly set_disk];
    fold simdir infile; try done.
  - rewrite insert_insert_eq. split; [done|].
    cbn [fst disk set_disk]. by rewrite lookup_insert_eq.
  - rewrite lookup_insert_ne; [done|]. apply infile_is_not_simdir.
Qed.

Lemma write_input_twice_witness :
  environ Examples.scratch_only !! "SCRATCH" = Some "/scratch"
  ∧ write_input Examples.wave3 Examples.flux2x2
      (write_input [] [] Examples.scratch_only).1
    = write_input Examples.wave3 Examples.flux2x2 Examples.scratch_only
  ∧ (disk (write_input Examples.wave3 Examples.flux2x2
             (write_input [] [] Examples.scratch_only).1).1 !! Examples.infile)
    = Some [wavelength_section Examples.wave3; flux_section Examples.flux2x2].
Proof.
  split; [reflexivity|].
  apply (write_input_twice Examples.scratch_only [] Examples.wave3 []
           Examples.flux2x2 "/scratch"); [reflexivity|reflexivity|].
  apply not_elem_of_empty.
Defined.

End InputFileCases.

(** ** What the cells print and run *)

Section Echo.

Local Arguments String.append !_ _ / : simpl nomatch.

Variable system :
  string → gmap string string → gmap string (list hdu) → Z * gmap string (list hdu).

Lemma shell_escape_after (cmd : string) (k : kernel) :
  shell_escape system cmd k = (after_command system cmd [] k, Ok ()).
Proof.
  rewrite shell_escape_completes. unfold after_command, set_exit_code, set_disk.
  cbn. by rewrite app_nil_r.
Qed.

Lemma run_quickspectra_eq (simdir infile : string) (k : kernel) :
  run_quickspectra system simdir infile k
  = (after_command system
       ("quickspectra -i " +:+ infile +:+ " -o "
        +:+ join simdir ["qso-observed-spectra.fits"])
       ["quickspectra -i " +:+ infile +:+ " -o "
        +:+ join simdir ["qso-observed-spectra.fits"]] k,
     Ok (join simdir ["qso-observed-spectra.fits"])).
Proof.
  unfold run_quickspectra. rewrite cmd_quickspectra_eq.
  unfold mbind, nb_bind, lift, print. rewrite shell_escape_completes. done.
Qed.

Lemma run_quickspectra_moon_eq (simdir infile : string) (k : kernel) :
  run_quickspectra_moon system simdir infile k
  = (after_command system
       ("quickspectra -i " +:+ infile +:+ " -o "
        +:+ join simdir ["qso-moon-spectra.fits"]
        +:+ " --moonfrac 0.9 --moonalt 70 --moonsep 20 --airmass 1.3")
       ["quickspectra -i " +:+ infile +:+ " -o "
        +:+ join simdir ["qso-moon-spectra.fits"]
        +:+ " --moonfrac 0.9 --moonalt 70 --moonsep 20 --airmass 1.3"] k,
     Ok (join simdir ["qso-moon-spectra.fits"])).
Proof.
  unfold run_quickspectra_moon. rewrite cmd_quickspectra_moon_eq.
  unfold mbind, nb_bind, lift, print. rewrite shell_escape_completes. done.
Qed.

Lemma cmd_rrdesi_command (specoutfile zoutfile : string) (k : kernel) :
  cmd_rrdesi specoutfile zoutfile k
  = (set_stdout (stdout k ++ batch_notice k specoutfile zoutfile) k,
     Ok (rrdesi_command k specoutfile zoutfile)).
Proof.
  pose proof (cmd_rrdesi_eq specoutfile zoutfile k) as Heq. cbn zeta in Heq.
  rewrite Heq. unfold batch_notice, rrdesi_command.
  destruct (on_nersc k).
  - by rewrite !append_assoc.
  - unfold set_stdout. rewrite app_nil_r. by destruct k.
Qed.

Lemma run_rrdesi_eq (simdir specoutfile : string) (k : kernel) :
  run_rrdesi system simdir specoutfile k
  = (after_command system
       (rrdesi_command k specoutfile (join simdir ["qso-zbest.fits"]))
       (batch_notice k specoutfile (join simdir ["qso-zbest.fits"])) k,
     Ok (join simdir ["qso-zbest.fits"])).
Proof.
  unfold run_rrdesi, mbind, nb_bind. rewrite cmd_rrdesi_command.
  rewrite shell_escape_completes. done.
Qed.

Lemma run_rrdesi_moon_eq (simdir specoutfile_moon : string) (k : kernel) :
  run_rrdesi_moon system simdir specoutfile_moon k
  = (after_command system
       (rrdesi_command k specoutfile_moon (join simdir ["qso-zbest-moon.fits"]))
       (batch_notice k specoutfile_moon (join simdir ["qso-zbest-moon.fits"])
        ++ [rrdesi_command k specoutfile_moon (join simdir ["qso-zbest-moon.fits"])]) k,
     Ok (join simdir ["qso-zbest-moon.fits"])).
Proof.
  unfold run_rrdesi_moon, mbind, nb_bind. rewrite cmd_rrdesi_command.
  unfold print. rewrite shell_escape_completes.
  unfold after_command, set_exit_code, set_disk, set_stdout. cbn.
  by rewrite <- app_assoc.
Qed.

(** X11: cells 16, 26 and 27 echo what they run: the last line each of them
    prints is the very command it then hands to the shell. *)
Theorem printed_command_is_run (simdir infile specoutfile_moon : string) (k : kernel) :
  (∃ cmd,
     run_quickspectra system simdir infile k
     = (after_command system cmd [cmd] k, Ok (join simdir ["qso-observed-spectra.fits"])))
  ∧ (∃ cmd,
       run_quickspectra_moon system simdir infile k
       = (after_command system cmd [cmd] k, Ok (join simdir ["qso-moon-spectra.fits"])))
  ∧ (∃ cmd notice,
       run_rrdesi_moon system simdir specoutfile_moon k
       = (after_command system cmd (notice ++ [cmd]) k,
          Ok (join simdir ["qso-zbest-moon.fits"]))).
Proof.
  split; [eexists; apply run_quickspectra_eq|].
  split; [eexists; apply run_quickspectra_moon_eq|].
  do 2 eexists. apply run_rrdesi_moon_eq.
Qed.

(** X12: cell 22 does not echo what it runs.  Without [NERSC_HOST] it
    prints nothing at all; with [NERSC_HOST] it prints the notice, the bare
    [rrdesi] command and an empty line, and then runs that command wrapped
    in [srun] and extended with [--mp 32]. *)
Theorem cell22_prints_the_bare_command (simdir specoutfile : string) (k : kernel) :
  let zoutfile := join simdir ["qso-zbest.fits"] in
  let bare := "rrdesi " +:+ specoutfile +:+ " --zbest " +:+ zoutfile in
  (environ k !! "NERSC_HOST" = None →
   run_rrdesi system simdir specoutfile k = (after_command system bare [] k, Ok zoutfile))
  ∧ (is_Some (environ k !! "NERSC_HOST") →
     run_rrdesi system simdir specoutfile k
     = (after_command system (srun +:+ " " +:+ bare +:+ " --mp 32")
          ["Running on a batch node:"; bare; ""] k, Ok zoutfile)
     ∧ String.eqb bare (srun +:+ " " +:+ bare +:+ " --mp 32") = false).
Proof.
  intros zoutfile bare. rewrite run_rrdesi_eq. fold zoutfile.
  unfold rrdesi_command, batch_notice. split.
  - intros Hoff. apply on_nersc_false in Hoff. by rewrite Hoff.
  - intros Hon. apply on_nersc_spec in Hon. rewrite Hon. split.
    + unfold bare. by rewrite !append_assoc.
    + by cbn.
Qed.

End Echo.

(** ** The whole run *)

Section RunAll.

Variable system :
  string → gmap string string → gmap string (list hdu) → Z * gmap string (list hdu).

(** X4: without [SCRATCH] in the environment "Run All" stops in cell 15
    with [KeyError]: no file is written, no command is run and nothing is
    printed, whatever the external programs would do. *)
Theorem run_all_needs_scratch (k : kernel) (wave : list float)
    (flux : list (list float)) (meta : hdu_data) :
  environ k !! "SCRATCH" = None →
  run_all system flux wave meta k = (k, Raise (KeyError "SCRATCH")).
Proof.
  intros Henv. unfold run_all, mbind at 1, nb_bind.
  by rewrite write_input_no_scratch.
Qed.

(** X10: when the simulator leaves no file at the path it was given, the
    run stops in cell 18 with [FileNotFoundError] for that path; by then
    only the simulator command has been printed and run, and its exit
    status, whatever it was, is what [_exit_code] holds. *)
Theorem run_all_stops_without_spectra (k : kernel) (wave : list float)
    (flux : list (list float)) (meta : hdu_data) (scratch : string) :
  environ k !! "SCRATCH" = Some scratch →
  let simdir := join scratch ["desi"; "simspec"] in
  let infile := join simdir ["qso-input-spectra.fits"] in
  let specoutfile := join simdir ["qso-observed-spectra.fits"] in
  let cmd := "quickspectra -i " +:+ infile +:+ " -o " +:+ specoutfile in
  let written :=
    set_disk (<[infile := [wavelength_section wave; flux_section flux]]> (disk k)) k in
  disk k !! simdir = None →
  infile ∉ readonly k →
  disk (after_command system cmd [cmd] written) !! specoutfile = None →
  run_all system flux wave meta k
  = (after_command system cmd [cmd] written, Raise (FileNotFoundError specoutfile)).
Proof.
  intros Henv simdir infile specoutfile cmd written Hdir Hrw Hmissing.
  unfold run_all, mbind at 1, nb_bind at 1.
  rewrite (write_input_ok k wave flux scratch) by done.
  fold simdir infile written.
  unfold mbind at 1, nb_bind at 1. rewrite run_quickspectra_eq.
  fold specoutfile cmd.
  unfold mbind at 1, nb_bind at 1, fits_open. by rewrite Hmissing.
Qed.

End RunAll.

Lemma run_all_needs_scratch_witness :
  environ (Kernel ∅ ∅ ∅ [] None) !! "SCRATCH" = None
  ∧ run_all Examples.always_fails Examples.flux2x2 Examples.wave3 Examples.meta1 (Kernel ∅ ∅ ∅ [] None)
    = (Kernel ∅ ∅ ∅ [] None, Raise (KeyError "SCRATCH")).
Proof.
  split; [reflexivity|].
  apply (run_all_needs_scratch Examples.always_fails (Kernel ∅ ∅ ∅ [] None)). reflexivity.
Defined.

Lemma run_all_stops_without_spectra_witness :
  environ Examples.scratch_only !! "SCRATCH" = Some "/scratch"
  ∧ (run_all Examples.always_fails Examples.flux2x2 Examples.wave3 Examples.meta1
       Examples.scratch_only).2
    = Raise (FileNotFoundError "/scratch/desi/simspec/qso-observed-spectra.fits").
Proof.
  split; [reflexivity|].
  rewrite (run_all_stops_without_spectra Examples.always_fails Examples.scratch_only
             Examples.wave3 Examples.flux2x2 Examples.meta1 "/scratch");
    [reflexivity|reflexivity|reflexivity|apply not_elem_of_empty|reflexivity].
Defined.

(** ** Order on binary64 values *)

Section FloatOrder.

Ltac compare_cases :=
  repeat match goal with
  | H : context [Z.compare ?a ?b] |- _ => destruct (Z.compare_spec a b)
  | H : context [Pos.compare_cont Eq ?a ?b] |- _ =>
      change (Pos.compare_cont Eq a b) with (Pos.compare a b) in H;
      destruct (Pos.compare_spec a b)
  | |- context [Z.compare ?a ?b] => destruct (Z.compare_spec a b)
  | |- context [Pos.compare_cont Eq ?a ?b] =>
      change (Pos.compare_cont Eq a b) with (Pos.compare a b);
      destruct (Pos.compare_spec a b)
  end.

Lemma SFleb_trans (x y z : spec_float) :
  SFleb x y = true → SFleb y z = true → SFleb x z = true.
Proof.
  unfold SFleb, SFcompare.
  destruct x as [[]|[]| |[] mx ex], y as [[]|[]| |[] my ey], z as [[]|[]| |[] mz ez];
    simpl; try congruence; intros H1 H2;
    compare_cases; simpl in *; subst; try congruence; try lia.
Qed.

Lemma SFleb_total (x y : spec_float) :
  x ≠ S754_nan → y ≠ S754_nan → SFltb x y = false → SFleb y x = true.
Proof.
  unfold SFleb, SFltb, SFcompare.
  destruct x as [[]|[]| |[] mx ex], y as [[]|[]| |[] my ey];
    simpl; try congruence; intros _ _ H;
    compare_cases; simpl in *; subst; try congruence; try lia.
Qed.

Lemma SFltb_leb (x y : spec_float) : SFltb x y = true → SFleb x y = true.
Proof. unfold SFleb, SFltb. destruct (SFcompare x y) as [[]|]; congruence. Qed.

Lemma SFleb_refl (x : spec_float) : x ≠ S754_nan → SFleb x x = true.
Proof.
  unfold SFleb, SFcompare.
  destruct x as [[]|[]| |[] mx ex]; simpl; try congruence; intros _;
    rewrite Z.compare_refl;
    change (Pos.compare_cont Eq mx mx) with (Pos.compare mx mx);
    by rewrite Pos.compare_refl.
Qed.

Lemma not_nan_spec (a : float) : PrimFloat.is_nan a = false → Prim2SF a ≠ S754_nan.
Proof.
  unfold PrimFloat.is_nan. rewrite FloatAxioms.eqb_spec. intros H Hnan.
  rewrite Hnan in H. discriminate H.
Qed.

Lemma leb_trans (a b c : float) :
  PrimFloat.leb a b = true → PrimFloat.leb b c = true → PrimFloat.leb a c = true.
Proof. rewrite !FloatAxioms.leb_spec. apply SFleb_trans. Qed.

Lemma leb_refl (a : float) : PrimFloat.is_nan a = false → PrimFloat.leb a a = true.
Proof. intros Ha. rewrite FloatAxioms.leb_spec. by apply SFleb_refl, not_nan_spec. Qed.

Lemma not_ltb_leb (a b : float) :
  PrimFloat.is_nan a = false → PrimFloat.is_nan b = false →
  PrimFloat.ltb a b = false → PrimFloat.leb b a = true.
Proof.
  intros Ha Hb. rewrite FloatAxioms.ltb_spec, FloatAxioms.leb_spec.
  by apply SFleb_total; apply not_nan_spec.
Qed.

Lemma ltb_leb (a b : float) : PrimFloat.ltb a b = true → PrimFloat.leb a b = true.
Proof. rewrite FloatAxioms.ltb_spec, FloatAxioms.leb_spec. apply SFltb_leb. Qed.

(** [min] and [max] of two numbers that are not NaN bound both. *)
Lemma py_min_le (a b : float) :
  PrimFloat.is_nan a = false → PrimFloat.is_nan b = false →
  PrimFloat.is_nan (py_min a b) = false
  ∧ PrimFloat.leb (py_min a b) a = true ∧ PrimFloat.leb (py_min a b) b = true.
Proof.
  intros Ha Hb. unfold py_min. destruct (PrimFloat.ltb b a) eqn:Hlt.
  - split; [done|]. split; [by apply ltb_leb|by apply leb_refl].
  - split; [done|]. split; [by apply leb_refl|by apply not_ltb_leb].
Qed.

Lemma py_max_ge (a b : float) :
  PrimFloat.is_nan a = false → PrimFloat.is_nan b = false →
  PrimFloat.is_nan (py_max a b) = false
  ∧ PrimFloat.leb a (py_max a b) = true ∧ PrimFloat.leb b (py_max a b) = true.
Proof.
  intros Ha Hb. unfold py_max. destruct (PrimFloat.ltb a b) eqn:Hlt.
  - split; [done|]. split; [by apply ltb_leb|by apply leb_refl].
  - split; [done|]. split; [by apply leb_refl|by apply not_ltb_leb].
Qed.

End FloatOrder.

(** ** Plotting *)

Section PlottingFacts.

Variable medfilt : list float → Z → outcome (list float).
Variable percentile : list float → float → outcome float.

Lemma fig_bind_ok {A B} (m : fig A) (f : A → fig B) (calls calls' : list plt_call) (b : B) :
  (m ≫= f) calls = (calls', Ok b) →
  ∃ a calls1, m calls = (calls1, Ok a) ∧ f a calls1 = (calls', Ok b).
Proof.
  unfold mbind, fig_bind. destruct (m calls) as [calls1 [a|e]]; [eauto|congruence].
Qed.

Lemma eval_ok {A} (o : outcome A) (calls calls' : list plt_call) (a : A) :
  eval o calls = (calls', Ok a) → o = Ok a ∧ calls' = calls.
Proof. unfold eval. by intros [= -> ->]. Qed.

Lemma plt_ok (c : plt_call) (calls calls' : list plt_call) (u : unit) :
  plt c calls = (calls', Ok u) → calls' = calls ++ [c].
Proof. unfold plt. by intros [= <-]. Qed.

Ltac fig_inv H :=
  repeat match type of H with
  | (_ ≫= _) _ = (_, Ok _) =>
      let a := fresh "a" in let c := fresh "calls" in
      let H1 := fresh "Hstep" in
      apply fig_bind_ok in H as (a & c & H1 & H);
      try (apply eval_ok in H1 as [H1 ->]);
      try (apply plt_ok in H1 as ->)
  end.

(** One pass of the loop widens the limits and covers the band's two
    percentiles. *)
Lemma widen_ok (spectra : Spectra.t) (i : Z) (x : string) (lim lim' : float * float)
    (calls calls' : list plt_call) :
  widen percentile spectra i x lim calls = (calls', Ok lim') →
  calls' = calls
  ∧ ∃ rows r lo hi,
      getitem (Spectra.flux spectra) x = Ok rows ∧ row rows i = Ok r
      ∧ percentile r 1%float = Ok lo ∧ percentile r 99%float = Ok hi
      ∧ lim' = (py_min lo (fst lim), py_max hi (snd lim)).
Proof.
  unfold widen. intros H. fig_inv H. injection H as <- <-.
  split; [done|]. eauto 10.
Qed.

(** The loop over the bands only ever widens the limits, and what it
    returns covers the two percentiles of every band it went through. *)
Lemma limits_cover (spectra : Spectra.t) (i : Z) (xs : list string) :
  (∀ x rows r q p,
     x ∈ xs → getitem (Spectra.flux spectra) x = Ok rows → row rows i = Ok r →
     q = 1%float ∨ q = 99%float → percentile r q = Ok p →
     PrimFloat.is_nan p = false) →
  ∀ (lim lim' : float * float) (calls calls' : list plt_call),
  PrimFloat.is_nan (fst lim) = false → PrimFloat.is_nan (snd lim) = false →
  for_each xs (widen percentile spectra i) lim calls = (calls', Ok lim') →
  calls' = calls
  ∧ PrimFloat.is_nan (fst lim') = false ∧ PrimFloat.is_nan (snd lim') = false
  ∧ PrimFloat.leb (fst lim') (fst lim) = true
  ∧ PrimFloat.leb (snd lim) (snd lim') = true
  ∧ ∀ x, x ∈ xs →
      ∃ rows r lo hi,
        getitem (Spectra.flux spectra) x = Ok rows ∧ row rows i = Ok r
        ∧ percentile r 1%float = Ok lo ∧ percentile r 99%float = Ok hi
        ∧ PrimFloat.leb (fst lim') lo = true ∧ PrimFloat.leb hi (snd lim') = true.
Proof.
  induction xs as [|x xs IH]; intros Hnn lim lim' calls calls' Hlo Hhi Hrun.
  - injection Hrun as <- <-.
    repeat split; try done; try by apply leb_refl.
    intros x Hx. by apply elem_of_nil in Hx.
  - cbn [for_each] in Hrun. apply fig_bind_ok in Hrun as (s & calls1 & Hw & Hrun).
    apply widen_ok in Hw as (-> & rows & r & lo & hi & Hrows & Hr & Hplo & Hphi & ->).
    assert (PrimFloat.is_nan lo = false) as Hnlo.
    { eapply (Hnn x rows r 1%float lo); eauto. by left. }
    assert (PrimFloat.is_nan hi = false) as Hnhi.
    { eapply (Hnn x rows r 99%float hi); eauto. by left. }
    destruct (py_min_le lo (fst lim) Hnlo Hlo) as (Hn1 & Hmin_lo & Hmin_lim).
    destruct (py_max_ge hi (snd lim) Hnhi Hhi) as (Hn2 & Hmax_hi & Hmax_lim).
    apply IH in Hrun as (-> & Hn1' & Hn2' & Hfst & Hsnd & Hall); [|..];
      [| intros x' rows' r' q p Hx'; apply (Hnn x' rows' r' q p); by right | done | done].
    cbn [fst snd] in *.
    repeat split; try done.
    + by eapply leb_trans.
    + by eapply leb_trans.
    + intros x' Hx'. apply elem_of_cons in Hx' as [->|Hx'].
      * exists rows, r, lo, hi. repeat split; try done; by eapply leb_trans.
      * by apply Hall.
Qed.

(** Every step before the limits are set only adds calls to the figure. *)
Lemma plot_band_ok (spectra : Spectra.t) (i nfilter : Z) (band color : string)
    (calls calls' : list plt_call) (u : unit) :
  plot_band medfilt spectra i nfilter band color calls = (calls', Ok u) →
  ∃ w rows r smooth,
    getitem (Spectra.wave spectra) band = Ok w
    ∧ getitem (Spectra.flux spectra) band = Ok rows ∧ row rows i = Ok r
    ∧ medfilt r nfilter = Ok smooth
    ∧ calls' = calls ++ [Plot w smooth color (Some 0.5%float)].
Proof.
  unfold plot_band. intros H. fig_inv H. apply plt_ok in H as ->. eauto 10.
Qed.

(** X1: when [plotspec] completes and none of the percentiles it asks for is
    NaN, the last three calls are [ylim], [ylabel] and [xlabel], and the
    limits passed to [ylim] contain zero and, for each of the bands b, r and
    z, the 1st and the 99th percentile of the plotted spectrum. *)
Theorem plotspec_ylim_covers (spectra : Spectra.t) (i nfilter : Z)
    (truewave : option (list float)) (trueflux : option (list (list float)))
    (calls calls' : list plt_call) :
  plotspec medfilt percentile spectra i truewave trueflux nfilter calls = (calls', Ok ()) →
  (∀ x rows r q p,
     x ∈ ["b"; "r"; "z"] → getitem (Spectra.flux spectra) x = Ok rows →
     row rows i = Ok r → q = 1%float ∨ q = 99%float → percentile r q = Ok p →
     PrimFloat.is_nan p = false) →
  ∃ before ymin ymax,
    calls' = before ++ [Ylim ymin ymax; Ylabel "flux [1e-17 erg/s/cm2/A]";
                        Xlabel "wavelength [A]"]
    ∧ PrimFloat.leb ymin 0 = true ∧ PrimFloat.leb 0 ymax = true
    ∧ ∀ x, x ∈ ["b"; "r"; "z"] →
        ∃ rows r lo hi,
          getitem (Spectra.flux spectra) x = Ok rows ∧ row rows i = Ok r
          ∧ percentile r 1%float = Ok lo ∧ percentile r 99%float = Ok hi
          ∧ PrimFloat.leb ymin lo = true ∧ PrimFloat.leb hi ymax = true.
Proof.
  unfold plotspec. intros Hrun Hnn.
  apply fig_bind_ok in Hrun as (_ & c1 & _ & Hrun).
  apply fig_bind_ok in Hrun as (_ & c2 & _ & Hrun).
  apply fig_bind_ok in Hrun as (_ & c3 & _ & Hrun).
  apply fig_bind_ok in Hrun as (_ & c4 & _ & Hrun).
  apply fig_bind_ok in Hrun as (_ & c5 & _ & Hrun).
  apply fig_bind_ok in Hrun as (lim & c6 & Hlim & Hrun).
  apply fig_bind_ok in Hrun as ([] & c7 & H7 & Hrun). apply plt_ok in H7 as ->.
  apply fig_bind_ok in Hrun as ([] & c8 & H8 & Hrun). apply plt_ok in H8 as ->.
  apply plt_ok in Hrun as ->.
  apply (limits_cover spectra i ["b"; "r"; "z"] Hnn) in Hlim
    as (-> & _ & _ & Hlo & Hhi & Hall); [|done|done].
  exists c5, (fst lim), (snd lim). split; [by rewrite <- !app_assoc|].
  done.
Qed.

Lemma row_ok_bound {A} (a : list A) (i : Z) (r : A) :
  row a i = Ok r → (0 ≤ i)%Z → (i < Z.of_nat (length a))%Z.
Proof.
  unfold row. intros H Hi.
  destruct (Z.ltb_spec i 0); [lia|].
  destruct (Z.leb_spec 0 i); [|lia].
  destruct (Z.ltb_spec i (Z.of_nat (length a))); [done|discriminate H].
Qed.

(** A loop that completes has completed every one of its passes. *)
Lemma for_each_ok {A S} (xs : list A) (body : A → S → fig S) (s s' : S)
    (calls calls' : list plt_call) (x : A) :
  for_each xs body s calls = (calls', Ok s') → x ∈ xs →
  ∃ s0 s1 calls0 calls1, body x s0 calls0 = (calls1, Ok s1).
Proof.
  revert s calls. induction xs as [|y xs IH]; intros s calls Hrun Hx.
  - by apply elem_of_nil in Hx.
  - cbn [for_each] in Hrun. apply fig_bind_ok in Hrun as (s1 & calls1 & Hy & Hrun).
    apply elem_of_cons in Hx as [->|Hx]; [eauto|by eapply IH].
Qed.

(** X2: the three-by-three grid of cell 20 can only be drawn in full when
    each of the bands b, r and z has a wavelength grid and at least nine
    spectra, and the true flux has at least nine rows. *)
Theorem plot_grid_needs_nine (spectra : Spectra.t) (wave : list float)
    (flux : list (list float)) (calls calls' : list plt_call) :
  plot_grid medfilt percentile spectra wave flux calls = (calls', Ok ()) →
  9 ≤ length flux
  ∧ ∀ x, x ∈ ["b"; "r"; "z"] →
      ∃ w rows,
        Spectra.wave spectra !! x = Some w
        ∧ Spectra.flux spectra !! x = Some rows
        ∧ 9 ≤ length rows.
Proof.
  unfold plot_grid. intros Hrun.
  apply fig_bind_ok in Hrun as (_ & c0 & _ & Hrun).
  eapply (for_each_ok _ _ _ _ _ _ 8%Z) in Hrun as (s0 & s1 & c1 & c2 & Hlast);
    [|by vm_compute; repeat constructor].
  apply fig_bind_ok in Hlast as (_ & c3 & _ & Hlast).
  unfold plotspec in Hlast.
  apply fig_bind_ok in Hlast as ([] & c4 & Hb & Hlast).
  apply fig_bind_ok in Hlast as ([] & c5 & Hr & Hlast).
  apply fig_bind_ok in Hlast as ([] & c6 & Hz & Hlast).
  apply fig_bind_ok in Hlast as ([] & c7 & Htruth & _).
  apply fig_bind_ok in Htruth as (truth & c8 & Htruth & _).
  apply eval_ok in Htruth as [Htruth _].
  apply row_ok_bound in Htruth; [|lia].
  split; [lia|].
  assert (∀ band color c c',
            plot_band medfilt spectra 8 11 band color c = (c', Ok ()) →
            ∃ w rows, Spectra.wave spectra !! band = Some w
                      ∧ Spectra.flux spectra !! band = Some rows
                      ∧ 9 ≤ length rows) as Hband.
  { intros band color c c' H.
    apply plot_band_ok in H as (w & rows & r & smooth & Hw & Hrows & Hrow & _).
    unfold getitem in Hw, Hrows.
    destruct (Spectra.wave spectra !! band) as [w'|]; [|discriminate Hw].
    destruct (Spectra.flux spectra !! band) as [rows'|]; [|discriminate Hrows].
    injection Hrows as ->. apply row_ok_bound in Hrow; [|lia].
    exists w', rows. repeat split; try done. lia. }
  intros x Hx.
  apply elem_of_cons in Hx as [->|Hx]; [by eapply Hband|].
  apply elem_of_cons in Hx as [->|Hx]; [by eapply Hband|].
  apply list_elem_of_singleton in Hx as ->. by eapply Hband.
Qed.

End PlottingFacts.

(** ** Plotting, on a concrete set of spectra *)

Lemma fixture_percentiles_are_numbers (i : Z) (x : string) (rows : list (list float))
    (r : list float) (q p : float) :
  x ∈ ["b"; "r"; "z"] → getitem (Spectra.flux Fixtures.spectra) x = Ok rows →
  row rows i = Ok r → q = 1%float ∨ q = 99%float → Fixtures.percentile r q = Ok p →
  PrimFloat.is_nan p = false.
Proof.
  intros Hx Hrows Hr Hq Hp.
  assert (rows = Fixtures.nine) as ->.
  { apply elem_of_cons in Hx as [->|Hx]; [by injection Hrows|].
    apply elem_of_cons in Hx as [->|Hx]; [by injection Hrows|].
    apply list_elem_of_singleton in Hx as ->. by injection Hrows. }
  assert (r = [(-1)%float; 0.5%float; 2%float]) as ->.
  { unfold row in Hr. destruct (_ && _); [|discriminate Hr].
    destruct (Fixtures.nine !! _) as [r'|] eqn:Hlook; [|discriminate Hr].
    injection Hr as <-. apply list_elem_of_lookup_2 in Hlook.
    unfold Fixtures.nine in Hlook. by apply elem_of_replicate in Hlook as [-> _]. }
  destruct Hq as [->| ->]; vm_compute in Hp; by injection Hp as <-.
Qed.

Lemma plotspec_ylim_covers_witness :
  (plotspec Fixtures.medfilt Fixtures.percentile Fixtures.spectra 0 None None 11 []).2
    = Ok ()
  ∧ ∃ before ymin ymax,
      (plotspec Fixtures.medfilt Fixtures.percentile Fixtures.spectra 0 None None 11 []).1
      = before ++ [Ylim ymin ymax; Ylabel "flux [1e-17 erg/s/cm2/A]";
                   Xlabel "wavelength [A]"]
      ∧ PrimFloat.leb ymin 0 = true ∧ PrimFloat.leb 0 ymax = true
      ∧ ∀ x, x ∈ ["b"; "r"; "z"] →
          ∃ rows r lo hi,
            getitem (Spectra.flux Fixtures.spectra) x = Ok rows ∧ row rows 0 = Ok r
            ∧ Fixtures.percentile r 1%float = Ok lo
            ∧ Fixtures.percentile r 99%float = Ok hi
            ∧ PrimFloat.leb ymin lo = true ∧ PrimFloat.leb hi ymax = true.
Proof.
  split; [by vm_compute|].
  apply (plotspec_ylim_covers Fixtures.medfilt Fixtures.percentile Fixtures.spectra
           0 11 None None []).
  - by vm_compute.
  - apply fixture_percentiles_are_numbers.
Defined.

Lemma plot_grid_needs_nine_witness :
  (plot_grid Fixtures.medfilt Fixtures.percentile Fixtures.spectra Examples.wave3
     Fixtures.nine []).2 = Ok ()
  ∧ 9 ≤ length Fixtures.nine
  ∧ ∀ x, x ∈ ["b"; "r"; "z"] →
      ∃ w rows,
        Spectra.wave Fixtures.spectra !! x = Some w
        ∧ Spectra.flux Fixtures.spectra !! x = Some rows
        ∧ 9 ≤ length rows.
Proof.
  split; [by vm_compute|].
  apply (plot_grid_needs_nine Fixtures.medfilt Fixtures.percentile Fixtures.spectra
           Examples.wave3 Fixtures.nine []
           (plot_grid Fixtures.medfilt Fixtures.percentile Fixtures.spectra
              Examples.wave3 Fixtures.nine []).1).
  by vm_compute.
Defined.

(** ** Index errors in [plotspec] *)

Section PlotspecErrors.

Variable medfilt : list float → Z → outcome (list float).
Variable percentile : list float → float → outcome float.

Lemma row_out_of_range {A} (a : list A) (i : Z) :
  (i < - Z.of_nat (length a) ∨ Z.of_nat (length a) ≤ i)%Z → row a i = Raise IndexError.
Proof.
  intros Hi. unfold row.
  destruct (Z.ltb_spec i 0).
  - destruct (Z.leb_spec 0 (Z.of_nat (length a) + i)); [lia|done].
  - destruct (Z.leb_spec 0 i); [|lia].
    destruct (Z.ltb_spec i (Z.of_nat (length a))); [lia|done].
Qed.

(** X13: asked for a spectrum that does not exist, that is for an index
    outside [-n, n) where n is the number of spectra in band b, [plotspec]
    raises [IndexError] before anything is drawn. *)
Theorem plotspec_index_out_of_range (spectra : Spectra.t) (i nfilter : Z)
    (truewave : option (list float)) (trueflux : option (list (list float)))
    (calls : list plt_call) (w : list float) (rows : list (list float)) :
  Spectra.wave spectra !! "b" = Some w →
  Spectra.flux spectra !! "b" = Some rows →
  (i < - Z.of_nat (length rows) ∨ Z.of_nat (length rows) ≤ i)%Z →
  plotspec medfilt percentile spectra i truewave trueflux nfilter calls
  = (calls, Raise IndexError).
Proof.
  intros Hw Hrows Hi.
  unfold plotspec, plot_band, mbind, fig_bind, eval, getitem.
  by rewrite Hw, Hrows, row_out_of_range.
Qed.

End PlotspecErrors.

Lemma plotspec_index_out_of_range_witness :
  Spectra.wave Fixtures.spectra !! "b" = Some [3600%float; 4000%float; 5800%float]
  ∧ plotspec Fixtures.medfilt Fixtures.percentile Fixtures.spectra 9 None None 11 []
    = ([], Raise IndexError).
Proof.
  split; [reflexivity|].
  apply (plotspec_index_out_of_range Fixtures.medfilt Fixtures.percentile
           Fixtures.spectra 9 11 None None []
           [3600%float; 4000%float; 5800%float] Fixtures.nine);
    [reflexivity|reflexivity|].
  right. vm_compute. discriminate.
Defined.

